(** * apk-patch-size-estimator: the patch transcoding pipeline

    A shallow embedding of [calculate_sizes] (apk_patch_size_estimator.py)
    and of the helpers it calls, [find_bins_or_die] and [find_binary].
    The function is a straight-line script over the file system and
    seven external processes, so it is embedded in a state-and-exception
    monad over

    - a file system, a finite map from files to their contents, a file
      being named by the directory and the name that a path resolves to;
    - the five module-level tool paths ([bsdiff_path], ...);
    - a ghost trace of the external processes that were run.

    The external programs are a parameter ([env]).  [posix] is the
    instance in which they behave as their manuals say, over abstract
    codec functions for bsdiff, bunzip2 and gzip.  Properties of the
    control flow are proved for every [env], properties of file contents
    for [posix] over every codec.

    [main] is embedded from the parsed arguments to the three numbers
    of its report.  Not embedded: the argparse front end and the printing
    of the report, with [human_file_size], whose result depends on the
    floating-point logarithm of the host and on the formatting of floats.

    Scope.  Every path of the model names a regular file that can be
    created, written and removed, and every command can be started.  A
    directory that sits at one of the paths the script opens or removes,
    a directory that is missing or cannot be written, and an executable
    that cannot be started ([cat] is never looked up) are outside the
    model: there the script stops with the [OSError] or [IOError] of
    that operation.  Symbolic and hard links to the files themselves are
    outside the model as well. *)

From Stdlib Require Import ZArith Strings.Byte.
From stdpp Require Import base strings gmap list pretty.

(** ** Data *)

(** File contents are byte strings. *)
Abbreviation bytes := (list byte).

(** A file is named by its directory and its name in that directory.
    The same file has many spellings as a path (['new.apk'],
    ['./new.apk'], ['/tmp//x'], ['/tmp/x']): a path is split at its last
    slash, and the host tells which directory the part before it names
    ([realdir] below). *)
Definition key : Type := string * string.

(** The file system maps a file to the contents of the regular file
    stored there. *)
Abbreviation filesystem := (gmap key bytes).

Definition slash : Ascii.ascii := Ascii.ascii_of_nat 47.

Fixpoint has_slash (s : string) : bool :=
  match s with
  | String c s' => bool_decide (c = slash) || has_slash s'
  | EmptyString => false
  end.

(** The part of a path up to and including its last slash, and the
    part after it. *)
Fixpoint dirname (p : string) : string :=
  match p with
  | String c p' =>
      if has_slash p' then String c (dirname p')
      else if bool_decide (c = slash) then "/" else ""
  | EmptyString => ""
  end.

Fixpoint basename (p : string) : string :=
  match p with
  | String c p' =>
      if has_slash p' then basename p'
      else if bool_decide (c = slash) then p' else p
  | EmptyString => ""
  end.

(** The file that the path [p] names when [realdir] resolves the
    directories. *)
Definition entry (realdir : string → string) (p : string) : key :=
  (realdir (dirname p), basename p).

(** The argument vectors the script builds, one constructor per shape:
    - [Bsdiff b o n t]      is  [[bsdiff_path, old_file, new_file, temp_path]]
    - [Head b 32 f]         is  [[head_path, '-c', '32', f]]
    - [Tail b 33 f]         is  [[tail_path, '-c', '+33', f]]
    - [Bunzip2 b f]         is  [[bunzip2_path, '-d', '-q', f]]
    - [Cat f g]             is  [['cat', f, g]]
    - [Gzip b 9 f]          is  [[gzip_path, '-9', f]]
    - [GzipStdout b 9 f]    is  [[gzip_path, '--keep', '-c', '-9', f]] *)
Inductive command : Type :=
  | Bsdiff (bin old_file new_file out : string)
  | Head (bin : string) (count : nat) (file : string)
  | Tail (bin : string) (first : nat) (file : string)
  | Bunzip2 (bin file : string)
  | Cat (file1 file2 : string)
  | Gzip (bin : string) (level : nat) (file : string)
  | GzipStdout (bin : string) (level : nat) (file : string).

(** What the script can raise: [subprocess.CalledProcessError] (from
    [check_output]), a plain [Exception] with a message, and the
    [OSError] of [os.stat] / [os.remove] on a missing path. *)
Inductive exn : Type :=
  | CalledProcessError (returncode : Z) (cmd : command)
  | Exception (message : string)
  | OSError (filename : string).

Inductive result (A : Type) : Type :=
  | Ok (a : A)
  | Err (e : exn).
Arguments Ok {A} a.
Arguments Err {A} e.

(** The host: [realdir d] is the directory that the path prefix [d]
    names (the current directory for the empty prefix; what ['.'],
    ['..'], doubled slashes and links to directories mean is the host's
    business); [which name] is the standard output of [which name], or
    [None] when it exits non-zero; [exec c fs] runs a command on a file
    system and gives its exit status, its standard output and the file
    system it leaves. *)
Record env : Type := Env {
  realdir : string → string;
  which : string → option string;
  exec : command → filesystem → Z * bytes * filesystem
}.

(** The file that a path names on the host. *)
Definition realpath (E : env) (p : string) : key := entry (realdir E) p.

(** The module globals.  Python's [None] and [''] are both falsy and the
    script only ever tests [not x] on them, so the unset value is the
    empty string. *)
Record globals : Type := Globals {
  bsdiff_path : string;
  gzip_path : string;
  head_path : string;
  tail_path : string;
  bunzip2_path : string
}.

(** One entry of the ghost trace: a finished process of the pipeline.
    The [which] lookups of the tool locator are not recorded. *)
Record event : Type := Ran {
  ev_cmd : command;
  ev_status : Z;
  ev_stdout : bytes
}.

Record state : Type := State {
  files : filesystem;
  bins : globals;
  trace : list event
}.

(** The dictionary [calculate_sizes] returns has exactly two keys. *)
Record sizes : Type := Sizes {
  gzipped_new_file_size : nat;
  bsdiff_patch_size : nat
}.

(** ** The monad of the script *)

Definition M (A : Type) : Type := state → result A * state.

Global Instance M_ret : MRet M := λ A a st, (Ok a, st).
Global Instance M_bind : MBind M := λ A B f m st,
  match m st with
  | (Ok a, st') => f a st'
  | (Err e, st') => (Err e, st')
  end.

Definition raise {A : Type} (e : exn) : M A := λ st, (Err e, st).

Definition with_files (fs : filesystem) (st : state) : state :=
  {| files := fs; bins := bins st; trace := trace st |}.

Definition with_bins (g : globals) (st : state) : state :=
  {| files := files st; bins := g; trace := trace st |}.

Definition ran (c : command) (rc : Z) (out : bytes) (fs : filesystem)
    (st : state) : state :=
  {| files := fs; bins := bins st; trace := trace st ++ [Ran c rc out] |}.

(** *** Python primitives *)

(** [os.path.exists(p)] *)
Definition path_exists (E : env) (p : string) : M bool := λ st,
  (Ok (bool_decide (is_Some (files st !! realpath E p))), st).

(** [os.remove(p)] *)
Definition remove (E : env) (p : string) : M unit := λ st,
  match files st !! realpath E p with
  | Some _ => (Ok (), with_files (delete (realpath E p) (files st)) st)
  | None => (Err (OSError p), st)
  end.

(** [if os.path.exists(p): os.remove(p)] *)
Definition remove_if_exists (E : env) (p : string) : M unit :=
  b ← path_exists E p; if (b : bool) then remove E p else mret ().

(** [open(p, 'w')]: the file is created, or truncated if it exists. *)
Definition open_w (E : env) (p : string) : M unit := λ st,
  (Ok (), with_files (<[realpath E p := []]> (files st)) st).

(** [subprocess.check_output(argv)] *)
Definition check_output (E : env) (c : command) : M bytes := λ st,
  let '(rc, out, fs) := exec E c (files st) in
  if decide (rc = 0%Z) then (Ok out, ran c rc out fs st)
  else (Err (CalledProcessError rc c), ran c rc out fs st).

(** [subprocess.Popen(argv, shell=False, stdout=f).wait()] where [f] is
    the file object just opened on [stdout] for writing: what the process
    prints is the contents of that file once it has finished. *)
Definition popen_wait (E : env) (c : command) (stdout : string) : M Z := λ st,
  let '(rc, out, fs) := exec E c (files st) in
  (Ok rc, ran c rc out (<[realpath E stdout := out]> fs) st).

(** [os.stat(p).st_size] *)
Definition stat_size (E : env) (p : string) : M nat := λ st,
  match files st !! realpath E p with
  | Some b => (Ok (length b), st)
  | None => (Err (OSError p), st)
  end.

(** Reading and assigning a module global. *)
Definition global (f : globals → string) : M string := λ st,
  (Ok (f (bins st)), st).

Definition assign (upd : globals → globals) : M unit := λ st,
  (Ok (), with_bins (upd (bins st)) st).

(** *** Strings *)

(** The double-quote character, code 34. *)
Definition dquote : string := String (Ascii.ascii_of_nat 34) "".

(** [str.strip()]: white space removed at both ends. *)
Fixpoint lstrip (s : string) : string :=
  match s with
  | String c s' => if Ascii.is_space c then lstrip s' else s
  | EmptyString => EmptyString
  end.

Definition strip (s : string) : string :=
  String.rev (lstrip (String.rev (lstrip s))).

(** Truth value of a Python string. *)
Definition truthy (s : string) : bool :=
  match s with EmptyString => false | String _ _ => true end.

(** ** The tool locator *)

(** [find_binary(binary_name)] *)
Definition find_binary (E : env) (binary_name : string) : M string :=
  match which E binary_name with
  | Some out => mret (strip out)
  | None =>
      raise (Exception ("No " +:+ dquote +:+ binary_name +:+ dquote
                        +:+ " on PATH, please install or fix PATH."))
  end.

Definition set_bsdiff_path (p : string) (g : globals) : globals :=
  {| bsdiff_path := p; gzip_path := gzip_path g; head_path := head_path g;
     tail_path := tail_path g; bunzip2_path := bunzip2_path g |}.
Definition set_gzip_path (p : string) (g : globals) : globals :=
  {| bsdiff_path := bsdiff_path g; gzip_path := p; head_path := head_path g;
     tail_path := tail_path g; bunzip2_path := bunzip2_path g |}.
Definition set_head_path (p : string) (g : globals) : globals :=
  {| bsdiff_path := bsdiff_path g; gzip_path := gzip_path g; head_path := p;
     tail_path := tail_path g; bunzip2_path := bunzip2_path g |}.
Definition set_tail_path (p : string) (g : globals) : globals :=
  {| bsdiff_path := bsdiff_path g; gzip_path := gzip_path g;
     head_path := head_path g; tail_path := p;
     bunzip2_path := bunzip2_path g |}.
Definition set_bunzip2_path (p : string) (g : globals) : globals :=
  {| bsdiff_path := bsdiff_path g; gzip_path := gzip_path g;
     head_path := head_path g; tail_path := tail_path g;
     bunzip2_path := p |}.

(** [if not g: g = find_binary(name)] *)
Definition resolve (E : env) (get : globals → string)
    (set : string → globals → globals) (name : string) : M unit :=
  cur ← global get;
  if truthy cur then mret () else p ← find_binary E name; assign (set p).

(** [find_bins_or_die()] *)
Definition find_bins_or_die (E : env) : M unit :=
  resolve E bsdiff_path set_bsdiff_path "bsdiff";;
  resolve E gzip_path set_gzip_path "gzip";;
  resolve E head_path set_head_path "head";;
  resolve E tail_path set_tail_path "tail";;
  resolve E bunzip2_path set_bunzip2_path "bunzip2".

(** ** The pipeline *)

(** [raise Exception(msg % ret_code)] when [ret_code != 0]. *)
Definition check_ret_code (ret_code : Z) (msg : string) : M unit :=
  if decide (ret_code ≠ 0%Z) then raise (Exception (msg +:+ pretty ret_code))
  else mret ().

(** The path of the rebuilt patch: [save_patch_path] when it is truthy,
    a temporary path otherwise. *)
Definition rebuilt_path (save_patch_path : option string)
    (raw_bsdiff_path : string) : string :=
  match save_patch_path with
  | Some p => if truthy p then p else raw_bsdiff_path +:+ ".rebuilt"
  | None => raw_bsdiff_path +:+ ".rebuilt"
  end.

(** [calculate_sizes(old_file, new_file, save_patch_path, temp_path)] *)
Definition calculate_sizes (E : env) (old_file new_file : string)
    (save_patch_path : option string) (temp_path : string) : M sizes :=
  remove_if_exists E (temp_path +:+ ".gz");;
  remove_if_exists E temp_path;;
  (* Checks that the OS binaries needed are available *)
  find_bins_or_die E;;
  (* Create the bsdiff of the two APKs *)
  bsdiff ← global bsdiff_path;
  check_output E (Bsdiff bsdiff old_file new_file temp_path);;
  let raw_bsdiff_path := temp_path +:+ ".raw_bsdiff" in
  let bzipped_bsdiff_path := raw_bsdiff_path +:+ ".bz2" in
  let gzipped_bsdiff_path := raw_bsdiff_path +:+ ".gz" in
  let bsdiff_header_path := temp_path +:+ ".raw_bsdiff_header" in
  remove_if_exists E raw_bsdiff_path;;
  remove_if_exists E bzipped_bsdiff_path;;
  remove_if_exists E gzipped_bsdiff_path;;
  remove_if_exists E bsdiff_header_path;;
  (* Strip the first 32 bytes the bsdiff file, which is a bsdiff-specific
     header. *)
  open_w E bsdiff_header_path;;
  head ← global head_path;
  ret_code ← popen_wait E (Head head 32 bsdiff_header_path) bsdiff_header_path;
  check_ret_code ret_code "Problem at the bsdiff step, returned code: ";;
  (* Take the remainder of the file to gain an uncompressed copy. *)
  open_w E bzipped_bsdiff_path;;
  tail ← global tail_path;
  ret_code ← popen_wait E (Tail tail 33 temp_path) bzipped_bsdiff_path;
  check_ret_code ret_code "Problem at the tail step, returned code: ";;
  bunzip2 ← global bunzip2_path;
  check_output E (Bunzip2 bunzip2 bzipped_bsdiff_path);;
  (* Prepend the 32 bytes of bsdiff header back onto the uncompressed
     file. *)
  let rebuilt_bsdiff_path := rebuilt_path save_patch_path raw_bsdiff_path in
  remove_if_exists E rebuilt_bsdiff_path;;
  remove_if_exists E (rebuilt_bsdiff_path +:+ ".gz");;
  open_w E rebuilt_bsdiff_path;;
  ret_code ← popen_wait E (Cat bsdiff_header_path raw_bsdiff_path)
                        rebuilt_bsdiff_path;
  check_ret_code ret_code "Problem at the cat step, returned code: ";;
  (* gzip the patch and get its size. *)
  gzip ← global gzip_path;
  check_output E (Gzip gzip 9 rebuilt_bsdiff_path);;
  bsdiff_patch_size ← stat_size E (rebuilt_bsdiff_path +:+ ".gz");
  (* gzip new APK and get its size. *)
  open_w E temp_path;;
  gzip ← global gzip_path;
  ret_code ← popen_wait E (GzipStdout gzip 9 new_file) temp_path;
  check_ret_code ret_code "Problem gzipping the new APK, returned code: ";;
  gzipped_new_file_size ← stat_size E temp_path;
  (* Clean up. *)
  remove_if_exists E temp_path;;
  remove_if_exists E gzipped_bsdiff_path;;
  mret {| gzipped_new_file_size := gzipped_new_file_size;
          bsdiff_patch_size := bsdiff_patch_size |}.

(** ** The command line *)

(** What [parser.parse_args()] returns: the values of [--old-file],
    [--new-file], [--save-patch] ([None] when the option is absent) and
    [--temp-dir]. *)
Module args.
Record t : Type := Parsed {
  old_file : string;
  new_file : string;
  save_patch : option string;
  temp_dir : string
}.
End args.

(** What [main] asks the operating system besides the regular files:
    [isdir p] is [os.path.isdir(p)], and [parent_writable p] is
    [os.access(os.path.dirname(os.path.abspath(p)), os.W_OK)]. *)
Record os_view : Type := OsView {
  isdir : string → bool;
  parent_writable : string → bool
}.

(** The three numbers [main] prints. *)
Record report : Type := Report {
  new_file_size : nat;
  gzipped_size : nat;
  bsdiff_size : nat
}.

(** [os.path.isfile(p)]: every file of the file system is a regular
    file. *)
Definition isfile (E : env) (p : string) : M bool := λ st,
  (Ok (bool_decide (is_Some (files st !! realpath E p))), st).

(** [main()], from the parsed arguments to the three numbers of its
    report.  The argparse front end, the locale and the layout of the
    printed lines are not part of the model. *)
Definition main (O : os_view) (E : env) (a : args.t) : M report :=
  b ← isfile E (args.old_file a);
  (if negb b
   then raise (Exception ("File does not exist: " +:+ args.old_file a))
   else mret ());;
  b ← isfile E (args.new_file a);
  (if negb b
   then raise (Exception ("File does not exist: " +:+ args.new_file a))
   else mret ());;
  match args.save_patch a with
  | Some p =>
      if truthy p && negb (parent_writable O p)
      then raise (Exception ("The save patch path is not writable: " +:+ p))
      else mret ()
  | None => mret ()
  end;;
  match args.save_patch a with
  | Some p =>
      if truthy p && isdir O p
      then raise (Exception ("Please include the filename in the path: "
                             +:+ p))
      else mret ()
  | None => mret ()
  end;;
  let save_patch_path := args.save_patch a in
  (if negb (isdir O (args.temp_dir a))
   then raise (Exception ("Temp directory does not exist: "
                          +:+ args.temp_dir a))
   else mret ());;
  let temp_path := args.temp_dir a +:+ "/patch.tmp" in
  sizes ← calculate_sizes E (args.old_file a) (args.new_file a)
            save_patch_path temp_path;
  new_file_size ← stat_size E (args.new_file a);
  let gzipped_size := gzipped_new_file_size sizes in
  let bsdiff_size := bsdiff_patch_size sizes in
  mret {| new_file_size := new_file_size; gzipped_size := gzipped_size;
          bsdiff_size := bsdiff_size |}.

(** ** The external programs as documented *)

(** What the documentation of the tools leaves to the installation: the
    directory each path prefix names, the three codecs, and two
    conventions of gzip.  [bunzip2_fn] is partial: not every byte string
    is a bzip2 stream.  The gzip stream depends on the compression
    level, on the name of the input, which gzip stores in the header,
    and on its bytes; the time stamp that gzip stores as well occupies
    four bytes of the header whatever its value and is left out.
    [gzip_suffixed f] tells whether gzip takes [f] for a compressed file
    by its name ([.gz], [.tgz], [-z] and the like) and leaves it
    unchanged; [gzip_unchanged] is its exit status then, 0 or 2
    depending on the version. *)
Record codecs : Type := Codecs {
  dir_fn : string → string;
  bsdiff_fn : bytes → bytes → bytes;
  bunzip2_fn : bytes → option bytes;
  gzip_fn : nat → string → bytes → bytes;
  gzip_suffixed : string → bool;
  gzip_unchanged : Z
}.

(** [drop_suffix suf s] is [Some p] when [s = p +:+ suf]. *)
Fixpoint drop_suffix (suf s : string) : option string :=
  if decide (s = suf) then Some EmptyString
  else match s with
       | String c s' => String c <$> drop_suffix suf s'
       | EmptyString => None
       end.

(** Where [bunzip2 f] writes: [f] without its [.bz2], or [f.out]. *)
Definition bunzip2_target (f : string) : string :=
  default (f +:+ ".out") (drop_suffix ".bz2" f).

(** Exit status, standard output and effect of each command:
    - bsdiff reads both inputs and writes the patch;
    - head and tail print a prefix and a suffix of one file;
    - bunzip2 replaces [f.bz2] by [f] and refuses to overwrite;
    - cat prints the files it can read and fails if one is missing;
    - gzip replaces [f] by [f.gz]; it leaves a file unchanged whose
      name already has a suffix of compressed files, and refuses to
      overwrite;
    - gzip -c prints the compressed file and keeps its input. *)
Definition posix_exec (cd : codecs) (c : command) (fs : filesystem)
    : Z * bytes * filesystem :=
  let at_ := entry (dir_fn cd) in
  match c with
  | Bsdiff _ old_file new_file out =>
      match fs !! at_ old_file, fs !! at_ new_file with
      | Some o, Some n => (0%Z, [], <[at_ out := bsdiff_fn cd o n]> fs)
      | _, _ => (1%Z, [], fs)
      end
  | Head _ count f =>
      match fs !! at_ f with
      | Some b => (0%Z, take count b, fs)
      | None => (1%Z, [], fs)
      end
  | Tail _ first f =>
      match fs !! at_ f with
      | Some b => (0%Z, drop (pred first) b, fs)
      | None => (1%Z, [], fs)
      end
  | Bunzip2 _ f =>
      match fs !! at_ f with
      | Some b =>
          if decide (is_Some (fs !! at_ (bunzip2_target f))) then (1%Z, [], fs)
          else match bunzip2_fn cd b with
               | Some d =>
                   (0%Z, [], <[at_ (bunzip2_target f) := d]> (delete (at_ f) fs))
               | None => (2%Z, [], fs)
               end
      | None => (1%Z, [], fs)
      end
  | Cat f g =>
      match fs !! at_ f, fs !! at_ g with
      | Some x, Some y => (0%Z, x ++ y, fs)
      | Some x, None => (1%Z, x, fs)
      | None, Some y => (1%Z, y, fs)
      | None, None => (1%Z, [], fs)
      end
  | Gzip _ level f =>
      match fs !! at_ f with
      | Some b =>
          if gzip_suffixed cd f then (gzip_unchanged cd, [], fs)
          else if decide (is_Some (fs !! at_ (f +:+ ".gz"))) then (2%Z, [], fs)
          else (0%Z, [],
                <[at_ (f +:+ ".gz") := gzip_fn cd level f b]> (delete (at_ f) fs))
      | None => (1%Z, [], fs)
      end
  | GzipStdout _ level f =>
      match fs !! at_ f with
      | Some b => (0%Z, gzip_fn cd level f b, fs)
      | None => (1%Z, [], fs)
      end
  end.

(** Every tool is installed in /usr/bin; [which] prints a line. *)
Definition newline : string := String (Ascii.ascii_of_nat 10) "".

Definition posix (cd : codecs) : env :=
  {| realdir := dir_fn cd;
     which := λ name, Some ("/usr/bin/" +:+ name +:+ newline);
     exec := posix_exec cd |}.

(** ** Vocabulary of the properties *)

(** The seven external-tool steps of the pipeline, in script order. *)
Inductive step : Type :=
  | DiffStep | HeadStep | TailStep | Bunzip2Step | CatStep
  | GzipPatchStep | GzipNewStep.

Definition step_of (c : command) : step :=
  match c with
  | Bsdiff _ _ _ _ => DiffStep
  | Head _ _ _ => HeadStep
  | Tail _ _ _ => TailStep
  | Bunzip2 _ _ => Bunzip2Step
  | Cat _ _ => CatStep
  | Gzip _ _ _ => GzipPatchStep
  | GzipStdout _ _ _ => GzipNewStep
  end.

(** The exception the script raises when the process of [ev] has exited
    non-zero: [check_output] raises [CalledProcessError] by itself, the
    four [Popen] sites each format their own message. *)
Definition raised_for (ev : event) : exn :=
  match ev_cmd ev with
  | Head _ _ _ =>
      Exception ("Problem at the bsdiff step, returned code: "
                 +:+ pretty (ev_status ev))
  | Tail _ _ _ =>
      Exception ("Problem at the tail step, returned code: "
                 +:+ pretty (ev_status ev))
  | Cat _ _ =>
      Exception ("Problem at the cat step, returned code: "
                 +:+ pretty (ev_status ev))
  | GzipStdout _ _ _ =>
      Exception ("Problem gzipping the new APK, returned code: "
                 +:+ pretty (ev_status ev))
  | c => CalledProcessError (ev_status ev) c
  end.

(** The step an error names: the command of a [CalledProcessError], the
    step written in the message of an [Exception]. *)
Definition names_step (e : exn) : option step :=
  match e with
  | CalledProcessError _ c => Some (step_of c)
  | Exception m =>
      if String.prefix "Problem at the bsdiff step" m then Some DiffStep
      else if String.prefix "Problem at the tail step" m then Some TailStep
      else if String.prefix "Problem at the cat step" m then Some CatStep
      else if String.prefix "Problem gzipping the new APK" m
           then Some GzipNewStep
      else None
  | OSError _ => None
  end.

(** The error shows the exit status [rc]: as the [returncode] of a
    [CalledProcessError], or printed in decimal at the end of the
    message. *)
Definition carries_status (e : exn) (rc : Z) : Prop :=
  match e with
  | CalledProcessError rc' _ => rc' = rc
  | Exception m => ∃ text, m = text +:+ pretty rc
  | OSError _ => False
  end.

(** The step named when [s] fails: a failure of head is reported as a
    problem at the bsdiff step. *)
Definition reported_step (s : step) : step :=
  match s with HeadStep => DiffStep | _ => s end.

(** Every process of the trace exited 0. *)
Definition quiet (tr : list event) : Prop :=
  Forall (λ ev, ev_status ev = 0%Z) tr.

(** [t] extends [t0] by processes that all exited 0. *)
Definition extends (t0 t : list event) : Prop :=
  ∃ tr, t = t0 ++ tr ∧ quiet tr.

(** Either every new process exited 0, or the last one did not and the
    script raised the corresponding error right after it. *)
Inductive shaped {A : Type} (t0 : list event)
    : list event → result A → Prop :=
  | shaped_quiet t r : extends t0 t → shaped t0 t r
  | shaped_abort t ev e :
      extends t0 t → ev_status ev ≠ 0%Z → e = raised_for ev →
      shaped t0 (t ++ [ev]) (Err e).

(** Where the standard output of each [Popen] site is redirected. *)
Definition redirected_to (save_patch_path : option string)
    (temp_path : string) (c : command) : option string :=
  match c with
  | Head _ _ _ => Some (temp_path +:+ ".raw_bsdiff_header")
  | Tail _ _ _ => Some ((temp_path +:+ ".raw_bsdiff") +:+ ".bz2")
  | Cat _ _ => Some (rebuilt_path save_patch_path (temp_path +:+ ".raw_bsdiff"))
  | GzipStdout _ _ _ => Some temp_path
  | _ => None
  end.

(** The paths the pipeline writes or removes. *)
Definition work_paths (save_patch_path : option string) (temp_path : string)
    : list string :=
  let raw_bsdiff_path := temp_path +:+ ".raw_bsdiff" in
  let rebuilt_bsdiff_path := rebuilt_path save_patch_path raw_bsdiff_path in
  [ temp_path +:+ ".gz"; temp_path; raw_bsdiff_path;
    raw_bsdiff_path +:+ ".bz2"; raw_bsdiff_path +:+ ".gz";
    temp_path +:+ ".raw_bsdiff_header";
    rebuilt_bsdiff_path; rebuilt_bsdiff_path +:+ ".gz" ].

(** The files the pipeline writes or removes on the host [E]. *)
Definition work_files (E : env) (save_patch_path : option string)
    (temp_path : string) : list key :=
  realpath E <$> work_paths save_patch_path temp_path.

(** [wp m Q st]: running [m] from [st] ends in a result and a state that
    satisfy [Q].  The monad is a total function, so this is the only
    run. *)
Definition wp {A : Type} (m : M A) (Q : result A → state → Prop)
    (st : state) : Prop :=
  Q (m st).1 (m st).2.
Global Arguments wp : simpl never.

(** *** Two runs side by side *)

(** The two file systems hold the same bytes, or both nothing, at every
    file of [W]. *)
Definition agree (W : list key) (fs1 fs2 : filesystem) : Prop :=
  ∀ k, k ∈ W → fs1 !! k = fs2 !! k.

(** What the tool locator answers from given globals: its result and
    the globals it leaves. *)
Definition locate (E : env) (g : globals) : result unit * globals :=
  let run := find_bins_or_die E {| files := ∅; bins := g; trace := [] |} in
  (run.1, bins run.2).

Definition same_location (E : env) : relation globals :=
  λ g1 g2, locate E g1 = locate E g2.

Definition rel (B : relation globals) (W : list key) : relation state :=
  λ st1 st2, B (bins st1) (bins st2) ∧ agree W (files st1) (files st2).

(** From states related by [R] the computation gives the same result
    and, when it returns, states related by [R']. *)
Definition lockstep {A : Type} (R R' : relation state) (m : M A) : Prop :=
  ∀ st1 st2, R st1 st2 →
    (m st1).1 = (m st2).1 ∧
    ∀ a, (m st1).1 = Ok a → R' (m st1).2 (m st2).2.

(** A computation that reads and writes the globals only. *)
Definition bins_only {A : Type} (m : M A) : Prop :=
  ∀ st,
    let run := m {| files := ∅; bins := bins st; trace := [] |} in
    m st = (run.1, with_bins (bins run.2) st).

(** *** The tool locator *)

(** The five tools with the global that holds the path of each, in the
    order in which [find_bins_or_die] looks them up. *)
Definition tools : list (string * (globals → string)) :=
  [ ("bsdiff", bsdiff_path); ("gzip", gzip_path); ("head", head_path);
    ("tail", tail_path); ("bunzip2", bunzip2_path) ].

(** The tools whose path is not set in [g], in that order. *)
Definition wanted (g : globals) : list string :=
  (filter (λ t, truthy (t.2 g) = false) tools).*1.

(** The error of [find_binary] for a binary that [which] does not
    find. *)
Definition not_on_path (binary_name : string) : exn :=
  Exception ("No " +:+ dquote +:+ binary_name +:+ dquote
             +:+ " on PATH, please install or fix PATH.").

(** A string of white space only; a string that starts with white space;
    a string with no white space at either end. *)
Fixpoint blank (s : string) : bool :=
  match s with
  | String c s' => Ascii.is_space c && blank s'
  | EmptyString => true
  end.

Definition starts_blank (s : string) : bool :=
  match s with
  | String c _ => Ascii.is_space c
  | EmptyString => false
  end.

Definition trimmed (s : string) : bool :=
  negb (starts_blank s) && negb (starts_blank (String.rev s)).

Fixpoint last_char (s : string) : option Ascii.ascii :=
  match s with
  | EmptyString => None
  | String c EmptyString => Some c
  | String _ s' => last_char s'
  end.

(** *** The script *)

(** The seven argument vectors of the pipeline, in script order, with
    the tool paths of [g]. *)
Definition script (g : globals) (old_file new_file : string)
    (save_patch_path : option string) (temp_path : string) : list command :=
  let raw_bsdiff_path := temp_path +:+ ".raw_bsdiff" in
  [ Bsdiff (bsdiff_path g) old_file new_file temp_path;
    Head (head_path g) 32 (temp_path +:+ ".raw_bsdiff_header");
    Tail (tail_path g) 33 temp_path;
    Bunzip2 (bunzip2_path g) (raw_bsdiff_path +:+ ".bz2");
    Cat (temp_path +:+ ".raw_bsdiff_header") raw_bsdiff_path;
    Gzip (gzip_path g) 9 (rebuilt_path save_patch_path raw_bsdiff_path);
    GzipStdout (gzip_path g) 9 new_file ].

(** *** The command line *)

(** The arguments pass the five checks of [main]: both files exist, the
    directory of a given save path is writable and the save path is not
    itself a directory, and the temp directory exists. *)
Definition accepted (O : os_view) (E : env) (a : args.t) (st : state)
    : Prop :=
  is_Some (files st !! realpath E (args.old_file a)) ∧
  is_Some (files st !! realpath E (args.new_file a)) ∧
  (∀ p, args.save_patch a = Some p → truthy p = true →
        parent_writable O p = true ∧ isdir O p = false) ∧
  isdir O (args.temp_dir a) = true.

(** The messages of the five checks. *)
Definition rejections (a : args.t) : list string :=
  [ "File does not exist: " +:+ args.old_file a;
    "File does not exist: " +:+ args.new_file a;
    "The save patch path is not writable: "
      +:+ default "" (args.save_patch a);
    "Please include the filename in the path: "
      +:+ default "" (args.save_patch a);
    "Temp directory does not exist: " +:+ args.temp_dir a ].

(** ** Concrete instances used in the examples *)

(** A toy installation.  The prefix [./] names the current directory,
    every other prefix a directory of its own.  The bzip2 stream of [b]
    is ["BZh" ++ b], the gzip stream at level [l] is [l] marker bytes
    and then [b], and the bsdiff patch is a 32-byte header followed by
    the bzip2 stream of the old file and the new file.  gzip leaves
    unchanged, with status 0, the files with one of the suffixes its
    manual lists. *)
Definition toy_dir (d : string) : string :=
  if decide (d = "./") then "" else d.

Definition known_suffixes : list string :=
  [".gz"; ".tgz"; ".taz"; ".z"; ".Z"; "-gz"; "-z"; "_z"].

Definition toy_suffixed (f : string) : bool :=
  existsb (λ suf, bool_decide (is_Some (drop_suffix suf f))) known_suffixes.

Definition toy_header : bytes :=
  String.list_byte_of_string "BSDIFF40ctrl-lenDATA-lenNEW-size".

Definition toy_bunzip2 (b : bytes) : option bytes :=
  match b with
  | x42 :: x5a :: x68 :: d => Some d
  | _ => None
  end.

Definition toy : codecs :=
  {| dir_fn := toy_dir;
     bsdiff_fn := λ o n, toy_header ++ [x42; x5a; x68] ++ o ++ n;
     bunzip2_fn := toy_bunzip2;
     gzip_fn := λ l _ b, replicate l x1f ++ b;
     gzip_suffixed := toy_suffixed;
     gzip_unchanged := 0 |}.

(** The same, with a diff tool whose payload is not a bzip2 stream. *)
Definition corrupt : codecs :=
  {| dir_fn := toy_dir;
     bsdiff_fn := λ o n, toy_header ++ n;
     bunzip2_fn := toy_bunzip2;
     gzip_fn := λ l _ b, replicate l x1f ++ b;
     gzip_suffixed := toy_suffixed;
     gzip_unchanged := 0 |}.

(** The toy installation with a diff tool that stops half way: it has
    written the header of the patch when it exits with status 1. *)
Definition half_written : env :=
  {| realdir := toy_dir;
     which := which (posix toy);
     exec := λ c fs,
       match c with
       | Bsdiff _ _ _ out => (1%Z, [], <[entry toy_dir out := toy_header]> fs)
       | _ => posix_exec toy c fs
       end |}.

(** The environment of the repository's failure test: [check_output] is
    patched to return [''] without running anything, and every [Popen]
    object answers [-1] to [wait()]. *)
Definition mocked : env :=
  {| realdir := toy_dir;
     which := λ _, Some "";
     exec := λ c fs,
       match c with
       | Head _ _ _ | Tail _ _ _ | Cat _ _ | GzipStdout _ _ _ => ((-1)%Z, [], fs)
       | _ => (0%Z, [], fs)
       end |}.

Definition no_globals : globals := Globals "" "" "" "" "".

(** A fresh interpreter over a file system. *)
Definition boot (fs : filesystem) : state :=
  {| files := fs; bins := no_globals; trace := [] |}.

Definition old_apk : bytes := String.list_byte_of_string "old apk".
Definition new_apk : bytes := String.list_byte_of_string "the new apk".

(** The file that a path names in the toy installation. *)
Definition file (p : string) : key := entry toy_dir p.

Definition two_apks : filesystem :=
  <[file "old.apk" := old_apk]> (<[file "new.apk" := new_apk]> ∅).

Definition no_old_apk : filesystem := <[file "new.apk" := new_apk]> ∅.

(** What the toy bsdiff writes for the two files, and its payload. *)
Definition toy_raw : bytes := bsdiff_fn toy old_apk new_apk.
Definition toy_payload : bytes := old_apk ++ new_apk.

(** The run of the repository's failure test. *)
Definition mock_run : result sizes * state :=
  calculate_sizes mocked "" "" None "/tmp/patch.tmp" (boot ∅).

(** A run in which bsdiff fails: there is no old file. *)
Definition failed_diff_run : result sizes * state :=
  calculate_sizes (posix toy) "old.apk" "new.apk" None "/tmp/patch.tmp"
    (boot no_old_apk).

(** A run in which bunzip2 rejects the payload. *)
Definition corrupt_run : result sizes * state :=
  calculate_sizes (posix corrupt) "old.apk" "new.apk" None "/tmp/patch.tmp"
    (boot two_apks).

(** An ordinary run, without and with a path to save the patch. *)
Definition good_run : result sizes * state :=
  calculate_sizes (posix toy) "old.apk" "new.apk" None "/tmp/patch.tmp"
    (boot two_apks).

Definition saved_run : result sizes * state :=
  calculate_sizes (posix toy) "old.apk" "new.apk" (Some "patch.out")
    "/tmp/patch.tmp" (boot two_apks).

(** A second call in the same interpreter, after [good_run]. *)
Definition second_run : result sizes * state :=
  calculate_sizes (posix toy) "old.apk" "new.apk" None "/tmp/patch.tmp"
    good_run.2.

(** A run in which the diff tool stops half way. *)
Definition crashed_run : result sizes * state :=
  calculate_sizes half_written "old.apk" "new.apk" None "/tmp/patch.tmp"
    (boot two_apks).

(** Runs in which the path to save the patch is that of the new file,
    in another spelling, and that of the decompressed payload. *)
Definition aliased_run : result sizes * state :=
  calculate_sizes (posix toy) "old.apk" "new.apk" (Some "./new.apk")
    "/tmp/patch.tmp" (boot two_apks).

Definition clobbered_run : result sizes * state :=
  calculate_sizes (posix toy) "old.apk" "new.apk"
    (Some "/tmp/patch.tmp.raw_bsdiff") "/tmp/patch.tmp" (boot two_apks).

(** A run in which the saved patch would sit at [temp_path]. *)
Definition overwritten_run : result sizes * state :=
  calculate_sizes (posix toy) "old.apk" "new.apk" (Some "/tmp/patch")
    "/tmp/patch.gz" (boot two_apks).

(** A run in which the new file sits at the path of the header file. *)
Definition header_apk : filesystem :=
  <[file "old.apk" := old_apk]>
    (<[file "/tmp/patch.tmp.raw_bsdiff_header" := new_apk]> ∅).

Definition header_run : result sizes * state :=
  calculate_sizes (posix toy) "old.apk" "/tmp/patch.tmp.raw_bsdiff_header"
    None "/tmp/patch.tmp" (boot header_apk).

(** A host on which nothing is installed. *)
Definition bare : env :=
  {| realdir := toy_dir; which := λ _, None;
     exec := λ _ fs, (127%Z, [], fs) |}.

(** The globals of an interpreter in which the tools have been located. *)
Definition located : state := (find_bins_or_die (posix toy) (boot ∅)).2.

(** A machine whose only directory is /tmp, and a command line that
    asks to save the patch. *)
Definition desk : os_view :=
  {| isdir := λ p, bool_decide (p = "/tmp"); parent_writable := λ _, true |}.

Definition cli : args.t :=
  {| args.old_file := "old.apk"; args.new_file := "new.apk";
     args.save_patch := Some "patch.out"; args.temp_dir := "/tmp" |}.

Definition cli_run : result report * state :=
  main desk (posix toy) cli (boot two_apks).


(** * Proofs *)

(** ** Rules of symbolic execution *)

Section wp_rules.
Context {A B : Type}.
Implicit Types (Q : result A → state → Prop) (st : state).

Lemma wp_run (m : M A) Q st r st' :
  wp m Q st → m st = (r, st') → Q r st'.
Proof. unfold wp. intros H Hm. by rewrite Hm in H. Qed.

Lemma wp_ret (a : A) Q st : Q (Ok a) st → wp (mret a) Q st.
Proof. done. Qed.

Lemma wp_raise (e : exn) Q st : Q (Err e) st → wp (raise e) Q st.
Proof. done. Qed.

Lemma wp_bind (m : M B) (k : B → M A) Q st :
  wp m (λ r st', match r with
                 | Ok b => wp (k b) Q st'
                 | Err e => Q (Err e) st'
                 end) st →
  wp (m ≫= k) Q st.
Proof. unfold wp, mbind, M_bind. by destruct (m st) as [[b|e] st']. Qed.

End wp_rules.

Lemma with_files_same st : with_files (files st) st = st.
Proof. by destruct st. Qed.

Lemma with_bins_same st : with_bins (bins st) st = st.
Proof. by destruct st. Qed.

Lemma with_bins_twice g g' st : with_bins g (with_bins g' st) = with_bins g st.
Proof. done. Qed.

(** Removing a path if it exists is removing its file from the map. *)
Lemma remove_if_exists_run E p st :
  remove_if_exists E p st
  = (Ok (), with_files (delete (realpath E p) (files st)) st).
Proof.
  unfold remove_if_exists, mbind, M_bind, path_exists, remove, mret, M_ret.
  case_bool_decide as Hp.
  - by destruct Hp as [b ->].
  - apply eq_None_not_Some in Hp.
    by rewrite delete_id, with_files_same.
Qed.

Lemma wp_remove_if_exists E p (Q : result unit → state → Prop) st :
  Q (Ok ()) (with_files (delete (realpath E p) (files st)) st) →
  wp (remove_if_exists E p) Q st.
Proof. unfold wp. by rewrite remove_if_exists_run. Qed.

Lemma wp_open_w E p (Q : result unit → state → Prop) st :
  Q (Ok ()) (with_files (<[realpath E p := []]> (files st)) st) →
  wp (open_w E p) Q st.
Proof. done. Qed.

Lemma wp_global f (Q : result string → state → Prop) st :
  Q (Ok (f (bins st))) st → wp (global f) Q st.
Proof. done. Qed.

Lemma wp_assign upd (Q : result unit → state → Prop) st :
  Q (Ok ()) (with_bins (upd (bins st)) st) → wp (assign upd) Q st.
Proof. done. Qed.

Lemma wp_check_output E c (Q : result bytes → state → Prop) st :
  (∀ rc out fs, exec E c (files st) = (rc, out, fs) →
     (rc = 0%Z → Q (Ok out) (ran c rc out fs st)) ∧
     (rc ≠ 0%Z → Q (Err (CalledProcessError rc c)) (ran c rc out fs st))) →
  wp (check_output E c) Q st.
Proof.
  unfold wp, check_output. destruct (exec E c (files st)) as [[rc out] fs].
  intros Hq. destruct (Hq rc out fs eq_refl). by case_decide; auto.
Qed.

Lemma wp_popen_wait E c f (Q : result Z → state → Prop) st :
  (∀ rc out fs, exec E c (files st) = (rc, out, fs) →
     Q (Ok rc) (ran c rc out (<[realpath E f := out]> fs) st)) →
  wp (popen_wait E c f) Q st.
Proof.
  unfold wp, popen_wait. destruct (exec E c (files st)) as [[rc out] fs].
  intros H. exact (H rc out fs eq_refl).
Qed.

Lemma wp_check_ret_code rc msg (Q : result unit → state → Prop) st :
  (rc = 0%Z → Q (Ok ()) st) →
  (rc ≠ 0%Z → Q (Err (Exception (msg +:+ pretty rc))) st) →
  wp (check_ret_code rc msg) Q st.
Proof.
  unfold wp, check_ret_code. intros Hz Hnz.
  destruct (decide (rc ≠ 0%Z)) as [Hrc|Hrc]; simpl; [auto|].
  apply Hz. by destruct (decide (rc = 0%Z)).
Qed.

Lemma wp_check_ret_code_0 msg (Q : result unit → state → Prop) st :
  Q (Ok ()) st → wp (check_ret_code 0 msg) Q st.
Proof. done. Qed.

Lemma wp_check_ret_code_1 msg (Q : result unit → state → Prop) st :
  Q (Err (Exception (msg +:+ "1"))) st → wp (check_ret_code 1 msg) Q st.
Proof. done. Qed.

Lemma wp_stat_size E p (Q : result nat → state → Prop) st :
  (∀ b, files st !! realpath E p = Some b → Q (Ok (length b)) st) →
  (files st !! realpath E p = None → Q (Err (OSError p)) st) →
  wp (stat_size E p) Q st.
Proof.
  unfold wp, stat_size. intros Hsome Hnone.
  destruct (files st !! realpath E p) as [b|]; simpl; auto.
Qed.

(** [find_bins_or_die] only assigns globals: whether it returns or
    raises, the files and the trace are as before. *)
Lemma wp_resolve E get set name (Q : result unit → state → Prop) st :
  (∀ g, Q (Ok ()) (with_bins g st)) →
  (∀ g msg, Q (Err (Exception msg)) (with_bins g st)) →
  wp (resolve E get set name) Q st.
Proof.
  intros Hok Herr. unfold wp, resolve, mbind, M_bind, global, find_binary.
  destruct (truthy (get (bins st))); simpl.
  { rewrite <-(with_bins_same st). apply Hok. }
  destruct (which E name); simpl; [apply Hok|].
  rewrite <-(with_bins_same st). apply Herr.
Qed.

Lemma wp_find_bins_or_die E (Q : result unit → state → Prop) st :
  (∀ g, Q (Ok ()) (with_bins g st)) →
  (∀ g msg, Q (Err (Exception msg)) (with_bins g st)) →
  wp (find_bins_or_die E) Q st.
Proof.
  intros Hok Herr. unfold find_bins_or_die.
  do 4 (apply wp_bind; apply wp_resolve;
          [intros ?; cbv beta iota
          |intros; rewrite ?with_bins_twice; apply Herr]).
  apply wp_resolve; intros; rewrite ?with_bins_twice; [apply Hok|apply Herr].
Qed.

(** One step of symbolic execution.  States are kept in normal form,
    otherwise they double in size at every step. *)
Ltac wp_norm :=
  cbv beta iota; cbn [with_files with_bins ran files bins trace].

Ltac wp_step :=
  lazymatch goal with
  | |- wp (mbind _ _) _ _ => apply wp_bind
  | |- wp (mret _) _ _ => apply wp_ret
  | |- wp (raise _) _ _ => apply wp_raise
  | |- wp (remove_if_exists _ _) _ _ => apply wp_remove_if_exists
  | |- wp (open_w _ _) _ _ => apply wp_open_w
  | |- wp (global _) _ _ => apply wp_global
  | |- wp (assign _) _ _ => apply wp_assign
  | |- wp (check_ret_code _ _) _ _ =>
      apply wp_check_ret_code; wp_norm; [intros ->|intros ?]
  | |- wp (stat_size _ _) _ _ =>
      apply wp_stat_size; wp_norm; [intros ? ?|intros ?]
  | |- wp (popen_wait _ _ _) _ _ =>
      apply wp_popen_wait; wp_norm; intros ? ? ? ?
  | |- wp (check_output _ _) _ _ =>
      apply wp_check_output; wp_norm; intros ? ? ? ?;
      split; [intros ->|intros ?]
  | |- wp (find_bins_or_die _) _ _ =>
      apply wp_find_bins_or_die; wp_norm; [intros ?|intros ? ?]
  end; wp_norm.

Ltac wp_run :=
  lazymatch goal with
  | |- wp _ _ ?st => is_var st; destruct st as [? ? ?]
  | |- _ => idtac
  end;
  cbv zeta; repeat wp_step.

(** ** Traces *)

Lemma extends_refl t0 : extends t0 t0.
Proof. exists []. split; [by rewrite app_nil_r | constructor]. Qed.

Lemma extends_snoc t0 t c out :
  extends t0 t → extends t0 (t ++ [Ran c 0 out]).
Proof.
  intros (tr & -> & Hq). exists (tr ++ [Ran c 0%Z out]).
  split; [by rewrite app_assoc|]. apply Forall_app. by repeat constructor.
Qed.

Lemma shaped_inv {A : Type} t0 tr (r : result A) ev :
  shaped t0 (t0 ++ tr) r → ev ∈ tr → ev_status ev ≠ 0%Z →
  (∃ tr0, tr = tr0 ++ [ev] ∧ quiet tr0) ∧ r = Err (raised_for ev).
Proof.
  intros Hs Hin Hnz. inversion Hs as [t r' Hext|t ev' e Hext Hnz' -> Ht]; subst.
  - destruct Hext as (tr' & ->%(inj (app t0)) & Hq).
    by apply (proj1 (Forall_forall _ _) Hq) in Hin.
  - destruct Hext as (tr' & -> & Hq).
    rewrite <-app_assoc in Ht. apply (inj (app t0)) in Ht as <-.
    apply elem_of_app in Hin as [Hin|Hin].
    + by apply (proj1 (Forall_forall _ _) Hq) in Hin.
    + apply list_elem_of_singleton in Hin as ->. eauto.
Qed.

Lemma carries_status_raised ev : carries_status (raised_for ev) (ev_status ev).
Proof. destruct ev as [[] rc out]; simpl; eauto. Qed.

Lemma names_step_raised ev :
  names_step (raised_for ev) = Some (reported_step (step_of (ev_cmd ev))).
Proof. by destruct ev as [[] rc out]. Qed.

(** Different steps raise different errors. *)
Lemma raised_for_step ev ev' :
  raised_for ev = raised_for ev' → step_of (ev_cmd ev) = step_of (ev_cmd ev').
Proof.
  intros Heq. pose proof (f_equal names_step Heq) as Hname.
  rewrite !names_step_raised in Hname.
  destruct ev as [[] rc out], ev' as [[] rc' out']; simplify_eq/=; done.
Qed.

Lemma app_self_nil {X : Type} (l k : list X) : l = l ++ k → k = [].
Proof.
  intros Hl. apply (f_equal length) in Hl. rewrite length_app in Hl.
  destruct k; [done | simpl in Hl; lia].
Qed.

Ltac solve_extends :=
  repeat apply extends_snoc; apply extends_refl.

Ltac solve_shaped :=
  simpl;
  first [ by apply shaped_abort; [solve_extends | done | reflexivity]
        | by apply shaped_quiet; solve_extends ].

(** From [trace = t0 ++ tr0 ++ [ev]], find [ev]. *)
Ltac last_event H :=
  first [ apply app_self_nil in H; by destruct (app_cons_not_nil _ _ _ (eq_sym H))
        | rewrite (app_assoc _ _ [_]) in H;
          apply app_inj_tail in H as [_ ?]; simplify_eq/= ].

(** ** Paths *)

Lemma string_app_empty_r (s : string) : s +:+ "" = s.
Proof. induction s as [|c s IH]; [done|]. by rewrite <-IH at 2. Qed.

Lemma string_app_assoc (a b c : string) : (a +:+ b) +:+ c = a +:+ (b +:+ c).
Proof.
  induction a as [|x a IH]; [done|].
  change (String x ((a +:+ b) +:+ c) = String x (a +:+ (b +:+ c))).
  by rewrite IH.
Qed.

Lemma string_length_app (a b : string) :
  String.length (a +:+ b) = String.length a + String.length b.
Proof. induction a as [|c a IH]; [done|]. simpl. by rewrite <-IH. Qed.

Lemma drop_suffix_app (suf p : string) : drop_suffix suf (p +:+ suf) = Some p.
Proof.
  induction p as [|c p IH].
  - change ("" +:+ suf) with suf. by destruct suf; simpl; try case_decide.
  - change (String c p +:+ suf) with (String c (p +:+ suf)). simpl.
    rewrite IH. case_decide as Heq; [|done].
    apply (f_equal String.length) in Heq. simpl in Heq.
    rewrite string_length_app in Heq. lia.
Qed.

Lemma bunzip2_target_bz2 (p : string) : bunzip2_target (p +:+ ".bz2") = p.
Proof. unfold bunzip2_target. by rewrite drop_suffix_app. Qed.

(** No path ends both in [.gz] and in [.bz2]. *)
Lemma gz_ne_bz2 (x y : string) : x +:+ ".gz" ≠ y +:+ ".bz2".
Proof.
  revert y. induction x as [|c x IH]; intros y Heq.
  - apply (f_equal String.length) in Heq.
    rewrite !string_length_app in Heq. simpl in Heq. lia.
  - destruct y as [|d y].
    + change (String c (x +:+ ".gz") = ".bz2") in Heq.
      injection Heq as _ Heq.
      destruct x as [|c' x]; [discriminate Heq|].
      change (String c' (x +:+ ".gz") = "bz2") in Heq.
      injection Heq as _ Heq.
      apply (f_equal String.length) in Heq.
      rewrite !string_length_app in Heq. simpl in Heq. lia.
    + change (String c (x +:+ ".gz") = String d (y +:+ ".bz2")) in Heq.
      injection Heq as _ Heq. by apply (IH y).
Qed.

(** *** Files *)

Lemma has_slash_app (a b : string) :
  has_slash (a +:+ b) = has_slash a || has_slash b.
Proof.
  induction a as [|c a IH]; [done|].
  change (String c a +:+ b) with (String c (a +:+ b)). simpl.
  by rewrite IH, orb_assoc.
Qed.

Lemma dirname_no_slash (a : string) : has_slash a = false → dirname a = "".
Proof.
  destruct a as [|c a]; [done|]. simpl.
  intros [Hc ->]%orb_false_elim. by rewrite Hc.
Qed.

Lemma basename_no_slash (a : string) : has_slash a = false → basename a = a.
Proof.
  destruct a as [|c a]; [done|]. simpl.
  intros [Hc ->]%orb_false_elim. by rewrite Hc.
Qed.

(** A suffix without a slash stays in the name of the file. *)
Lemma dirname_app (p a : string) :
  has_slash a = false → dirname (p +:+ a) = dirname p.
Proof.
  intros Ha. induction p as [|c p IH]; [by apply dirname_no_slash|].
  change (String c p +:+ a) with (String c (p +:+ a)). simpl.
  by rewrite has_slash_app, Ha, orb_false_r, IH.
Qed.

Lemma basename_app (p a : string) :
  has_slash a = false → basename (p +:+ a) = basename p +:+ a.
Proof.
  intros Ha. induction p as [|c p IH]; [by apply basename_no_slash|].
  change (String c p +:+ a) with (String c (p +:+ a)). simpl.
  rewrite has_slash_app, Ha, orb_false_r, IH.
  by destruct (has_slash p), (bool_decide (c = slash)).
Qed.

Lemma entry_app rd (p a : string) :
  has_slash a = false →
  entry rd (p +:+ a) = (rd (dirname p), basename p +:+ a).
Proof.
  intros Ha. unfold entry. by rewrite dirname_app, basename_app.
Qed.

(** Two paths made from the same stem by different suffixes without a
    slash name different files, however the directories resolve. *)
Lemma entry_ne_suffix rd (p a b : string) :
  has_slash a = false → has_slash b = false → a ≠ b →
  entry rd (p +:+ a) ≠ entry rd (p +:+ b).
Proof.
  intros Ha Hb Hab. rewrite !entry_app by done. intros [= Heq].
  by apply (inj (String.app _)) in Heq.
Qed.

Lemma entry_ne_self_r rd (p a : string) :
  has_slash a = false → a ≠ "" → entry rd p ≠ entry rd (p +:+ a).
Proof.
  intros Ha Hne. rewrite <-(string_app_empty_r p) at 1.
  by apply entry_ne_suffix.
Qed.

Lemma entry_ne_self_l rd (p a : string) :
  has_slash a = false → a ≠ "" → entry rd (p +:+ a) ≠ entry rd p.
Proof. intros Ha Hne Heq. by apply (entry_ne_self_r rd p a). Qed.

(** No file has a name that ends both in [.gz] and in [.bz2]. *)
Lemma entry_gz_ne_bz2 rd (x y : string) :
  entry rd (x +:+ ".gz") ≠ entry rd (y +:+ ".bz2").
Proof.
  rewrite !entry_app by done. intros [= _ Heq]. by apply gz_ne_bz2 in Heq.
Qed.

(** Two files made from the same stem by different suffixes differ. *)
Ltac path_ne :=
  unfold realpath; rewrite ?string_app_assoc;
  first [ apply entry_ne_suffix | apply entry_ne_self_r
        | apply entry_ne_self_l ];
  by vm_compute.

(** Lookups in a file system built by insertions and removals. *)
Ltac path_side := first [ path_ne | done | by apply not_eq_sym ].

Ltac lookup_norm_in H :=
  repeat first
    [ rewrite lookup_insert_eq in H
    | rewrite lookup_delete_eq in H
    | rewrite lookup_insert_ne in H by path_side
    | rewrite lookup_delete_ne in H by path_side ];
  try first [ discriminate H | injection H as <- | injection H as -> ].

Ltac lookup_norm :=
  repeat first
    [ rewrite lookup_insert_eq
    | rewrite lookup_delete_eq
    | rewrite lookup_insert_ne by path_side
    | rewrite lookup_delete_ne by path_side ].

Ltac intro_lookup :=
  let H := fresh "Hfile" in intros H; lookup_norm_in H.

(** From [k ∉ work_files _ _ _], the eight inequalities. *)
Ltac not_work_path H :=
  unfold work_files, work_paths in H;
  rewrite !fmap_cons, !not_elem_of_cons in H; destruct_and!.

(** ** Rules for the documented tools *)

Section wp_posix.
Context (cd : codecs).
Implicit Types (st : state).
Local Abbreviation K := (realpath (posix cd)).

Lemma wp_posix_bsdiff bin o n t (Q : result bytes → state → Prop) st :
  (∀ ob nb, files st !! K o = Some ob → files st !! K n = Some nb →
     Q (Ok []) (ran (Bsdiff bin o n t) 0 []
                    (<[K t := bsdiff_fn cd ob nb]> (files st)) st)) →
  Q (Err (CalledProcessError 1 (Bsdiff bin o n t)))
    (ran (Bsdiff bin o n t) 1 [] (files st) st) →
  wp (check_output (posix cd) (Bsdiff bin o n t)) Q st.
Proof.
  intros Hok Herr. unfold wp, check_output. cbn [exec posix posix_exec].
  pose proof (Hok' := Hok). unfold realpath in Hok'. cbn [realdir posix] in Hok'.
  destruct (files st !! _) as [ob|]; [|done].
  destruct (files st !! _) as [nb|]; [|done]. by apply Hok'.
Qed.

Lemma wp_posix_head bin k f to (Q : result Z → state → Prop) st :
  (∀ x, files st !! K f = Some x →
     Q (Ok 0%Z) (ran (Head bin k f) 0 (take k x)
                     (<[K to := take k x]> (files st)) st)) →
  (files st !! K f = None →
     Q (Ok 1%Z) (ran (Head bin k f) 1 [] (<[K to := []]> (files st)) st)) →
  wp (popen_wait (posix cd) (Head bin k f) to) Q st.
Proof.
  intros Hok Herr. unfold wp, popen_wait. cbn [exec posix posix_exec].
  unfold realpath in *. cbn [realdir posix] in *.
  destruct (files st !! _) as [x|]; [by apply Hok | by apply Herr].
Qed.

Lemma wp_posix_tail bin k f to (Q : result Z → state → Prop) st :
  (∀ x, files st !! K f = Some x →
     Q (Ok 0%Z) (ran (Tail bin k f) 0 (drop (pred k) x)
                     (<[K to := drop (pred k) x]> (files st)) st)) →
  (files st !! K f = None →
     Q (Ok 1%Z) (ran (Tail bin k f) 1 [] (<[K to := []]> (files st)) st)) →
  wp (popen_wait (posix cd) (Tail bin k f) to) Q st.
Proof.
  intros Hok Herr. unfold wp, popen_wait. cbn [exec posix posix_exec].
  unfold realpath in *. cbn [realdir posix] in *.
  destruct (files st !! _) as [x|]; [by apply Hok | by apply Herr].
Qed.

Lemma wp_posix_bunzip2 bin f (Q : result bytes → state → Prop) st :
  (∀ b d, files st !! K f = Some b →
     files st !! K (bunzip2_target f) = None →
     bunzip2_fn cd b = Some d →
     Q (Ok []) (ran (Bunzip2 bin f) 0 []
                    (<[K (bunzip2_target f) := d]> (delete (K f) (files st)))
                    st)) →
  (∀ rc, rc ≠ 0%Z →
     Q (Err (CalledProcessError rc (Bunzip2 bin f)))
       (ran (Bunzip2 bin f) rc [] (files st) st)) →
  wp (check_output (posix cd) (Bunzip2 bin f)) Q st.
Proof.
  intros Hok Herr. unfold wp, check_output. cbn [exec posix posix_exec].
  unfold realpath in *. cbn [realdir posix] in *.
  destruct (files st !! entry (dir_fn cd) f) as [b|] eqn:Hf; [|by apply Herr].
  case_decide as Ht; [by apply Herr|].
  apply eq_None_not_Some in Ht.
  destruct (bunzip2_fn cd b) as [d|] eqn:Hd; [by eapply Hok | by apply Herr].
Qed.

Lemma wp_posix_cat f g to (Q : result Z → state → Prop) st :
  (∀ x y, files st !! K f = Some x → files st !! K g = Some y →
     Q (Ok 0%Z) (ran (Cat f g) 0 (x ++ y) (<[K to := x ++ y]> (files st)) st)) →
  (∀ out, Q (Ok 1%Z) (ran (Cat f g) 1 out (<[K to := out]> (files st)) st)) →
  wp (popen_wait (posix cd) (Cat f g) to) Q st.
Proof.
  intros Hok Herr. unfold wp, popen_wait. cbn [exec posix posix_exec].
  unfold realpath in *. cbn [realdir posix] in *.
  destruct (files st !! entry (dir_fn cd) f) as [x|], (files st !! entry (dir_fn cd) g) as [y|];
    [by apply Hok | apply Herr ..].
Qed.

(** gzip ends in one of three ways: it has replaced the file by its
    compressed copy; it has left the file unchanged because of its
    name, with status 0; or it has changed nothing and exits non-zero. *)
Lemma wp_posix_gzip bin l f (Q : result bytes → state → Prop) st :
  (∀ b, files st !! K f = Some b →
     gzip_suffixed cd f = false →
     files st !! K (f +:+ ".gz") = None →
     Q (Ok []) (ran (Gzip bin l f) 0 []
                    (<[K (f +:+ ".gz") := gzip_fn cd l f b]>
                       (delete (K f) (files st)))
                    st)) →
  (gzip_suffixed cd f = true →
     Q (Ok []) (ran (Gzip bin l f) 0 [] (files st) st)) →
  (∀ rc, rc ≠ 0%Z →
     Q (Err (CalledProcessError rc (Gzip bin l f)))
       (ran (Gzip bin l f) rc [] (files st) st)) →
  wp (check_output (posix cd) (Gzip bin l f)) Q st.
Proof.
  intros Hok Hskip Herr. unfold wp, check_output. cbn [exec posix posix_exec].
  unfold realpath in *. cbn [realdir posix] in *.
  destruct (files st !! entry (dir_fn cd) f) as [b|] eqn:Hf; [|by apply Herr].
  destruct (gzip_suffixed cd f) eqn:Hs.
  { case_decide as Hz; [rewrite Hz; by apply Hskip | by apply Herr]. }
  case_decide as Ht; [by apply Herr|]. apply eq_None_not_Some in Ht.
  by eapply Hok.
Qed.

Lemma wp_posix_gzip_stdout bin l f to (Q : result Z → state → Prop) st :
  (∀ b, files st !! K f = Some b →
     Q (Ok 0%Z) (ran (GzipStdout bin l f) 0 (gzip_fn cd l f b)
                     (<[K to := gzip_fn cd l f b]> (files st)) st)) →
  (files st !! K f = None →
     Q (Ok 1%Z) (ran (GzipStdout bin l f) 1 []
                     (<[K to := []]> (files st)) st)) →
  wp (popen_wait (posix cd) (GzipStdout bin l f) to) Q st.
Proof.
  intros Hok Herr. unfold wp, popen_wait. cbn [exec posix posix_exec].
  unfold realpath in *. cbn [realdir posix] in *.
  destruct (files st !! _) as [b|]; [by apply Hok | by apply Herr].
Qed.

End wp_posix.

(** One step of symbolic execution with the documented tools. *)
Ltac wp_posix_step :=
  lazymatch goal with
  | |- wp (check_output (posix _) (Bsdiff _ _ _ _)) _ _ =>
      apply wp_posix_bsdiff; wp_norm;
      [intros ? ?; intro_lookup; intro_lookup|]
  | |- wp (popen_wait (posix _) (Head _ _ _) _) _ _ =>
      apply wp_posix_head; wp_norm; [intros ?; intro_lookup|intro_lookup]
  | |- wp (popen_wait (posix _) (Tail _ _ _) _) _ _ =>
      apply wp_posix_tail; wp_norm; [intros ?; intro_lookup|intro_lookup]
  | |- wp (check_output (posix _) (Bunzip2 _ _)) _ _ =>
      apply wp_posix_bunzip2; rewrite ?bunzip2_target_bz2; wp_norm;
      [intros ? ?; intro_lookup; intro_lookup; intros ?|intros ? ?]
  | |- wp (popen_wait (posix _) (Cat _ _) _) _ _ =>
      apply wp_posix_cat; wp_norm;
      [intros ? ?; intro_lookup; intro_lookup|intros ?]
  | |- wp (check_output (posix _) (Gzip _ _ _)) _ _ =>
      apply wp_posix_gzip; wp_norm;
      [intros ?; intro_lookup; intros ?; intro_lookup|intros ?|intros ? ?]
  | |- wp (popen_wait (posix _) (GzipStdout _ _ _) _) _ _ =>
      apply wp_posix_gzip_stdout; wp_norm;
      [intros ?; intro_lookup|intro_lookup]
  | |- wp (check_ret_code 0 _) _ _ => apply wp_check_ret_code_0
  | |- wp (check_ret_code 1 _) _ _ => apply wp_check_ret_code_1
  | |- wp (stat_size _ _) _ _ =>
      apply wp_stat_size; wp_norm; [intros ?; intro_lookup|intro_lookup]
  | |- _ => wp_step
  end; wp_norm.

Ltac wp_posix_run :=
  lazymatch goal with
  | |- wp _ _ ?st => is_var st; destruct st as [? ? ?]
  | |- _ => idtac
  end;
  cbv zeta; repeat wp_posix_step.

(** ** Rules for two runs side by side *)

Lemma bins_only_bind {A B : Type} (m : M A) (k : A → M B) :
  bins_only m → (∀ a, bins_only (k a)) → bins_only (m ≫= k).
Proof.
  intros Hm Hk st. unfold mbind, M_bind. cbv zeta. rewrite (Hm st).
  destruct (m {| files := ∅; bins := bins st; trace := [] |})
    as [[a|e] st0]; simpl; [|done].
  rewrite (Hk a (with_bins (bins st0) st)), (Hk a st0). by cbv zeta.
Qed.

Lemma bins_only_resolve E get set name : bins_only (resolve E get set name).
Proof.
  intros st. unfold resolve, mbind, M_bind, global, find_binary. simpl.
  destruct (truthy (get (bins st))); simpl; [by rewrite with_bins_same|].
  destruct (which E name); simpl; [done|by rewrite with_bins_same].
Qed.

Lemma find_bins_or_die_locate E st :
  find_bins_or_die E st
  = ((locate E (bins st)).1, with_bins (locate E (bins st)).2 st).
Proof.
  assert (bins_only (find_bins_or_die E)) as Hb; [|apply Hb].
  unfold find_bins_or_die.
  repeat first [ apply bins_only_resolve
               | apply bins_only_bind; [|intros ?] ].
Qed.

Lemma agree_delete W p fs1 fs2 :
  agree W fs1 fs2 → agree (p :: W) (delete p fs1) (delete p fs2).
Proof.
  intros Hag q Hq. destruct (decide (p = q)) as [->|Hne].
  - by rewrite !lookup_delete_eq.
  - rewrite !lookup_delete_ne by done. apply Hag.
    by apply elem_of_cons in Hq as [->|Hq].
Qed.

Lemma agree_insert W p v fs1 fs2 :
  agree W fs1 fs2 → agree (p :: W) (<[p := v]> fs1) (<[p := v]> fs2).
Proof.
  intros Hag q Hq. destruct (decide (p = q)) as [->|Hne].
  - by rewrite !lookup_insert_eq.
  - rewrite !lookup_insert_ne by done. apply Hag.
    by apply elem_of_cons in Hq as [->|Hq].
Qed.

Section lockstep_rules.
Context {A B : Type} (cd : codecs) (G : relation globals).
Implicit Types (W : list key) (R : relation state).
Local Abbreviation K := (realpath (posix cd)).

Lemma lockstep_ret R (a : A) : lockstep R R (mret a).
Proof. by intros st1 st2 HR. Qed.

Lemma lockstep_bind R R1 R2 (m : M B) (k : B → M A) :
  lockstep R R1 m → (∀ b, lockstep R1 R2 (k b)) → lockstep R R2 (m ≫= k).
Proof.
  intros Hm Hk st1 st2 HR. destruct (Hm st1 st2 HR) as [Hr HR1].
  unfold mbind, M_bind.
  destruct (m st1) as [[b|e] st1'], (m st2) as [[b'|e'] st2'];
    simplify_eq/=; [|done].
  by apply Hk, (HR1 b').
Qed.

Lemma lockstep_remove_if_exists E W p :
  lockstep (rel G W) (rel G (realpath E p :: W)) (remove_if_exists E p).
Proof.
  intros st1 st2 [HG Hag]. rewrite !remove_if_exists_run.
  split; [done|]. intros _ _. split; [done|]. by apply agree_delete.
Qed.

Lemma lockstep_open_w E W p :
  lockstep (rel G W) (rel G (realpath E p :: W)) (open_w E p).
Proof.
  intros st1 st2 [HG Hag]. split; [done|]. intros _ _.
  split; [done|]. by apply agree_insert.
Qed.

Lemma lockstep_stat_size E W p :
  realpath E p ∈ W → lockstep (rel G W) (rel G W) (stat_size E p).
Proof.
  intros Hp st1 st2 [HG Hag]. unfold stat_size. rewrite <-(Hag _ Hp).
  by destruct (files st1 !! realpath E p).
Qed.

Lemma lockstep_check_ret_code R rc msg :
  lockstep R R (check_ret_code rc msg).
Proof. intros st1 st2 HR. unfold check_ret_code. by case_decide. Qed.

Lemma lockstep_global W f : lockstep (rel eq W) (rel eq W) (global f).
Proof.
  intros st1 st2 [HG Hag]. unfold global. simpl. by rewrite HG.
Qed.

Lemma lockstep_find_bins_or_die E W :
  lockstep (rel (same_location E) W) (rel eq W) (find_bins_or_die E).
Proof.
  intros st1 st2 [HG Hag]. rewrite !find_bins_or_die_locate.
  unfold same_location in HG. rewrite HG. by simpl.
Qed.

Lemma lockstep_bsdiff W bin o n t :
  K o ∈ W → K n ∈ W →
  lockstep (rel G W) (rel G (K t :: W))
    (check_output (posix cd) (Bsdiff bin o n t)).
Proof.
  intros Ho Hn st1 st2 [HG Hag]. unfold check_output.
  cbn [exec posix posix_exec]. unfold realpath in *. cbn [realdir posix] in *.
  rewrite <-(Hag _ Ho), <-(Hag _ Hn).
  destruct (files st1 !! entry (dir_fn cd) o), (files st1 !! entry (dir_fn cd) n); simpl; try done.
  split; [done|]. intros _ _. split; [done|]. by apply agree_insert.
Qed.

Lemma lockstep_head W bin k f to :
  K f ∈ W →
  lockstep (rel G W) (rel G (K to :: W))
    (popen_wait (posix cd) (Head bin k f) to).
Proof.
  intros Hf st1 st2 [HG Hag]. unfold popen_wait.
  cbn [exec posix posix_exec]. unfold realpath in *. cbn [realdir posix] in *.
  rewrite <-(Hag _ Hf).
  destruct (files st1 !! entry (dir_fn cd) f); simpl;
    (split; [done|]; intros _ _; split; [done|]; by apply agree_insert).
Qed.

Lemma lockstep_tail W bin k f to :
  K f ∈ W →
  lockstep (rel G W) (rel G (K to :: W))
    (popen_wait (posix cd) (Tail bin k f) to).
Proof.
  intros Hf st1 st2 [HG Hag]. unfold popen_wait.
  cbn [exec posix posix_exec]. unfold realpath in *. cbn [realdir posix] in *.
  rewrite <-(Hag _ Hf).
  destruct (files st1 !! entry (dir_fn cd) f); simpl;
    (split; [done|]; intros _ _; split; [done|]; by apply agree_insert).
Qed.

Lemma lockstep_cat W f g to :
  K f ∈ W → K g ∈ W →
  lockstep (rel G W) (rel G (K to :: W))
    (popen_wait (posix cd) (Cat f g) to).
Proof.
  intros Hf Hg st1 st2 [HG Hag]. unfold popen_wait.
  cbn [exec posix posix_exec]. unfold realpath in *. cbn [realdir posix] in *.
  rewrite <-(Hag _ Hf), <-(Hag _ Hg).
  destruct (files st1 !! entry (dir_fn cd) f), (files st1 !! entry (dir_fn cd) g); simpl;
    (split; [done|]; intros _ _; split; [done|]; by apply agree_insert).
Qed.

Lemma lockstep_gzip_stdout W bin l f to :
  K f ∈ W →
  lockstep (rel G W) (rel G (K to :: W))
    (popen_wait (posix cd) (GzipStdout bin l f) to).
Proof.
  intros Hf st1 st2 [HG Hag]. unfold popen_wait.
  cbn [exec posix posix_exec]. unfold realpath in *. cbn [realdir posix] in *.
  rewrite <-(Hag _ Hf).
  destruct (files st1 !! entry (dir_fn cd) f); simpl;
    (split; [done|]; intros _ _; split; [done|]; by apply agree_insert).
Qed.

Lemma lockstep_bunzip2 W bin f :
  K f ∈ W → K (bunzip2_target f) ∈ W →
  lockstep (rel G W) (rel G (K (bunzip2_target f) :: K f :: W))
    (check_output (posix cd) (Bunzip2 bin f)).
Proof.
  intros Hf Ht st1 st2 [HG Hag]. unfold check_output.
  cbn [exec posix posix_exec]. unfold realpath in *. cbn [realdir posix] in *.
  rewrite <-(Hag _ Hf), <-(Hag _ Ht).
  destruct (files st1 !! entry (dir_fn cd) f); simpl; [|done].
  case_decide; simpl; [done|].
  destruct (bunzip2_fn cd _); simpl; [|done].
  split; [done|]. intros _ _. split; [done|].
  by apply agree_insert, agree_delete.
Qed.

(** After gzip the two runs agree on the file and on its compressed
    copy, whether gzip has compressed the file or left it unchanged. *)
Lemma lockstep_gzip W bin l f :
  K f ∈ W → K (f +:+ ".gz") ∈ W →
  lockstep (rel G W) (rel G W) (check_output (posix cd) (Gzip bin l f)).
Proof.
  intros Hf Ht st1 st2 [HG Hag]. unfold check_output.
  cbn [exec posix posix_exec]. unfold realpath in *. cbn [realdir posix] in *.
  rewrite <-(Hag _ Hf), <-(Hag _ Ht).
  destruct (files st1 !! entry (dir_fn cd) f); simpl; [|done].
  destruct (gzip_suffixed cd f); simpl; [by case_decide|].
  case_decide; simpl; [done|].
  split; [done|]. intros _ _. split; [done|].
  intros k Hk. simpl.
  destruct (decide (entry (dir_fn cd) (f +:+ ".gz") = k)) as [<-|];
    [by rewrite !lookup_insert_eq|].
  rewrite !lookup_insert_ne by done.
  destruct (decide (entry (dir_fn cd) f = k)) as [<-|];
    [by rewrite !lookup_delete_eq|].
  rewrite !lookup_delete_ne by done. by apply Hag.
Qed.

End lockstep_rules.

Ltac solve_elem :=
  solve [ repeat first [ apply list_elem_of_here | apply list_elem_of_further ] ].

Ltac lockstep_prim :=
  lazymatch goal with
  | |- lockstep _ _ (remove_if_exists _ _) => apply lockstep_remove_if_exists
  | |- lockstep _ _ (open_w _ _) => apply lockstep_open_w
  | |- lockstep _ _ (stat_size _ _) => apply lockstep_stat_size; solve_elem
  | |- lockstep _ _ (check_ret_code _ _) => apply lockstep_check_ret_code
  | |- lockstep _ _ (global _) => apply lockstep_global
  | |- lockstep _ _ (find_bins_or_die _) => apply lockstep_find_bins_or_die
  | |- lockstep _ _ (check_output _ (Bsdiff _ _ _ _)) =>
      apply lockstep_bsdiff; solve_elem
  | |- lockstep _ _ (popen_wait _ (Head _ _ _) _) =>
      apply lockstep_head; solve_elem
  | |- lockstep _ _ (popen_wait _ (Tail _ _ _) _) =>
      apply lockstep_tail; solve_elem
  | |- lockstep _ _ (popen_wait _ (Cat _ _) _) =>
      apply lockstep_cat; solve_elem
  | |- lockstep _ _ (popen_wait _ (GzipStdout _ _ _) _) =>
      apply lockstep_gzip_stdout; solve_elem
  | |- lockstep _ _ (check_output _ (Bunzip2 _ _)) =>
      apply lockstep_bunzip2; rewrite ?bunzip2_target_bz2; solve_elem
  | |- lockstep _ _ (check_output _ (Gzip _ _ _)) =>
      apply lockstep_gzip; solve_elem
  | |- lockstep _ _ (mret _) => apply lockstep_ret
  end.

Ltac lockstep_run :=
  repeat lazymatch goal with
  | |- lockstep _ _ (mbind _ _) =>
      eapply lockstep_bind; [lockstep_prim|intros ?]
  | |- lockstep _ _ _ => lockstep_prim
  end.


(** ** The pipeline *)

(** Shape of the trace of any run, on any host. *)
Lemma calculate_sizes_shaped E old_file new_file save_patch_path temp_path st :
  wp (calculate_sizes E old_file new_file save_patch_path temp_path)
     (λ r st', shaped (trace st) (trace st') r) st.
Proof.
  unfold calculate_sizes. wp_run.
  all: solve_shaped.
Qed.

(** What the clean-up block removes when the call returns; when a
    process fails, nothing happens after it. *)
Lemma calculate_sizes_cleanup E old_file new_file save_patch_path temp_path st :
  wp (calculate_sizes E old_file new_file save_patch_path temp_path)
     (λ r st',
        match r with
        | Ok _ =>
            files st' !! realpath E temp_path = None ∧
            files st' !! realpath E ((temp_path +:+ ".raw_bsdiff") +:+ ".gz")
              = None
        | Err _ =>
            ∀ tr0 ev,
              trace st' = trace st ++ tr0 ++ [ev] →
              ev_status ev ≠ 0%Z →
              ∃ fs0 fs1,
                exec E (ev_cmd ev) fs0 = (ev_status ev, ev_stdout ev, fs1) ∧
                files st'
                = match redirected_to save_patch_path temp_path (ev_cmd ev)
                  with
                  | Some p => <[realpath E p := ev_stdout ev]> fs1
                  | None => fs1
                  end
        end) st.
Proof.
  unfold calculate_sizes. wp_run.
  all: try (intros tr0 ev Htr Hnz; simpl in *; last_event Htr;
            first [ done
                  | do 2 eexists; split; [eassumption|reflexivity] ]).
  split; [|by rewrite lookup_delete_eq].
  rewrite lookup_delete_ne by path_ne. by rewrite lookup_delete_eq.
Qed.

Section documented_tools.
Context (cd : codecs).
Local Abbreviation K := (realpath (posix cd)).

(** With the documented tools, bunzip2 and gzip consume their inputs. *)
Lemma calculate_sizes_consumed old_file new_file save_patch_path temp_path st :
  wp (calculate_sizes (posix cd) old_file new_file save_patch_path temp_path)
     (λ r st',
        match r with
        | Ok _ =>
            files st' !! K ((temp_path +:+ ".raw_bsdiff") +:+ ".bz2") = None ∧
            files st' !! K (rebuilt_path save_patch_path
                              (temp_path +:+ ".raw_bsdiff")) = None
        | Err _ => True
        end) st.
Proof.
  unfold calculate_sizes.
  generalize (rebuilt_path save_patch_path (temp_path +:+ ".raw_bsdiff")).
  intros rebuilt. wp_posix_run; try done.
  pose proof (entry_gz_ne_bz2 (dir_fn cd) rebuilt (temp_path +:+ ".raw_bsdiff"))
    as Hgz.
  split.
  - destruct (decide (K rebuilt = K ((temp_path +:+ ".raw_bsdiff") +:+ ".bz2")))
      as [Heq|]; [rewrite ?Heq|]; by lookup_norm.
  - destruct (decide (K rebuilt = K ((temp_path +:+ ".raw_bsdiff") +:+ ".gz")))
      as [Heq|]; [rewrite ?Heq; by lookup_norm|].
    destruct (decide (K rebuilt = K temp_path)) as [Heq|];
      [rewrite ?Heq|]; by lookup_norm.
Qed.

(** With the documented tools, only the work files change. *)
Lemma calculate_sizes_frame old_file new_file save_patch_path temp_path st :
  wp (calculate_sizes (posix cd) old_file new_file save_patch_path temp_path)
     (λ r st', ∀ k, k ∉ work_files (posix cd) save_patch_path temp_path →
                    files st' !! k = files st !! k) st.
Proof.
  unfold calculate_sizes. wp_posix_run.
  all: intros k Hk; not_work_path Hk; by lookup_norm.
Qed.

(** With the documented tools, a new file outside the work files is
    still there when [gzip -c], the last process, reads it. *)
Lemma calculate_sizes_new_file_size old_file new_file save_patch_path
    temp_path st :
  wp (calculate_sizes (posix cd) old_file new_file save_patch_path temp_path)
     (λ r st',
        match r with
        | Ok v =>
            K new_file ∉ work_files (posix cd) save_patch_path temp_path →
            ∃ b,
              files st !! K new_file = Some b ∧
              last (trace st')
                = Some (Ran (GzipStdout (gzip_path (bins st')) 9 new_file) 0
                            (gzip_fn cd 9 new_file b)) ∧
              gzipped_new_file_size v = length (gzip_fn cd 9 new_file b)
        | Err _ => True
        end) st.
Proof.
  unfold calculate_sizes. wp_posix_run; try done.
  cbn [gzipped_new_file_size].
  match goal with
  | H : _ !! K new_file = Some ?b |- context [gzip_fn cd 9 new_file ?b] =>
      rename H into Hread
  end.
  intros Hp. not_work_path Hp. lookup_norm_in Hread.
  eexists. split; [eassumption|]. split; [|done].
  by rewrite last_snoc.
Qed.

Lemma calculate_sizes_gzip_level old_file new_file save_patch_path temp_path st :
  wp (calculate_sizes (posix cd) old_file new_file save_patch_path temp_path)
     (λ r st',
        match r with
        | Ok v =>
            ∃ patch newb tr,
              trace st' = trace st ++ tr ∧
              Ran (Cat (temp_path +:+ ".raw_bsdiff_header")
                     (temp_path +:+ ".raw_bsdiff")) 0 patch ∈ tr ∧
              Ran (Gzip (gzip_path (bins st')) 9
                     (rebuilt_path save_patch_path
                        (temp_path +:+ ".raw_bsdiff"))) 0 [] ∈ tr ∧
              Ran (GzipStdout (gzip_path (bins st')) 9 new_file) 0
                  (gzip_fn cd 9 new_file newb) ∈ tr ∧
              bsdiff_patch_size v
                = length (gzip_fn cd 9
                            (rebuilt_path save_patch_path
                               (temp_path +:+ ".raw_bsdiff")) patch) ∧
              gzipped_new_file_size v = length (gzip_fn cd 9 new_file newb)
        | Err _ => True
        end) st.
Proof.
  unfold calculate_sizes. wp_posix_run; try done.
  do 3 eexists. split; [by rewrite <-!app_assoc|].
  repeat split; apply list_elem_of_In; simpl; tauto.
Qed.

Lemma calculate_sizes_saved_patch old_file new_file save_patch_path
    temp_path st :
  wp (calculate_sizes (posix cd) old_file new_file (Some save_patch_path)
        temp_path)
     (λ r st',
        match r with
        | Ok v =>
            truthy save_patch_path = true →
            K (save_patch_path +:+ ".gz") ≠ K temp_path →
            K (save_patch_path +:+ ".gz")
              ≠ K ((temp_path +:+ ".raw_bsdiff") +:+ ".gz") →
            files st' !! K save_patch_path = None ∧
            ∃ patch,
              files st' !! K (save_patch_path +:+ ".gz")
                = Some (gzip_fn cd 9 save_patch_path patch) ∧
              bsdiff_patch_size v
                = length (gzip_fn cd 9 save_patch_path patch)
        | Err _ => True
        end) st.
Proof.
  unfold calculate_sizes, rebuilt_path.
  destruct (truthy save_patch_path); wp_posix_run; try done.
  intros _ HT Hgz. cbn [bsdiff_patch_size]. split.
  - destruct (decide (K save_patch_path
                      = K ((temp_path +:+ ".raw_bsdiff") +:+ ".gz")))
      as [Heq|]; [rewrite ?Heq; by lookup_norm|].
    destruct (decide (K save_patch_path = K temp_path)) as [Heq|];
      [rewrite ?Heq|]; by lookup_norm.
  - eexists. split; [|reflexivity]. by lookup_norm.
Qed.

(** With the documented tools the pipeline reads the two input files
    and what it has written itself, nothing else. *)
Lemma calculate_sizes_lockstep old_file new_file save_patch_path temp_path :
  ∃ R', lockstep (rel (same_location (posix cd)) [K old_file; K new_file]) R'
          (calculate_sizes (posix cd) old_file new_file save_patch_path
             temp_path).
Proof.
  eexists. unfold calculate_sizes. cbv zeta. lockstep_run.
Qed.

(** With the documented tools and no path to save the patch, whenever
    the call returns the header file is empty and the rebuilt patch is
    the decompressed payload alone. *)
Lemma header_never_copied old_file new_file temp_path st :
  wp (calculate_sizes (posix cd) old_file new_file None temp_path)
     (λ r st',
        match r with
        | Ok v =>
            let rebuilt := (temp_path +:+ ".raw_bsdiff") +:+ ".rebuilt" in
            ∃ ob nb d,
              bunzip2_fn cd (drop 32 (bsdiff_fn cd ob nb)) = Some d ∧
              files st' !! K (temp_path +:+ ".raw_bsdiff_header") = Some [] ∧
              files st' !! K (rebuilt +:+ ".gz")
                = Some (gzip_fn cd 9 rebuilt d) ∧
              bsdiff_patch_size v = length (gzip_fn cd 9 rebuilt d)
        | Err _ => True
        end) st.
Proof.
  unfold calculate_sizes, rebuilt_path. wp_posix_run; try done.
  do 3 eexists. split; [eassumption|]. by lookup_norm.
Qed.

End documented_tools.

(** The repository's test of [find_binary]: the message for a binary
    that is not on the PATH. *)
Example find_binary_fail :
  (find_binary bare "does_not_extist_command" (boot ∅)).1
  = Err (Exception ("No " +:+ dquote +:+ "does_not_extist_command" +:+ dquote
                    +:+ " on PATH, please install or fix PATH.")).
Proof. reflexivity. Qed.

(** [which] prints a line; [find_binary] strips it. *)
Example find_binary_strips :
  (find_binary (posix toy) "gzip" (boot ∅)).1 = Ok "/usr/bin/gzip".
Proof. reflexivity. Qed.

(** ** More on strings *)

Lemma string_rev_app_spec (s t : string) :
  String.rev_app s t = String.rev s +:+ t.
Proof.
  unfold String.rev. revert t. induction s as [|c s IH]; intros t; [done|].
  simpl. rewrite (IH (String c "")), IH, string_app_assoc. done.
Qed.

Lemma string_rev_app_distr (a b : string) :
  String.rev (a +:+ b) = String.rev b +:+ String.rev a.
Proof.
  induction a as [|c a IH].
  - change ("" +:+ b) with b. by rewrite string_app_empty_r.
  - change (String c a +:+ b) with (String c (a +:+ b)).
    unfold String.rev at 1 3. simpl. rewrite !string_rev_app_spec, IH.
    by rewrite string_app_assoc.
Qed.

Lemma string_rev_involutive (s : string) : String.rev (String.rev s) = s.
Proof.
  induction s as [|c s IH]; [done|].
  unfold String.rev at 2. simpl.
  rewrite string_rev_app_spec, string_rev_app_distr, IH. done.
Qed.

Lemma blank_app (a b : string) : blank (a +:+ b) = blank a && blank b.
Proof.
  induction a as [|c a IH]; [done|].
  change (String c a +:+ b) with (String c (a +:+ b)). simpl.
  by rewrite IH, andb_assoc.
Qed.

Lemma blank_rev (s : string) : blank (String.rev s) = blank s.
Proof.
  induction s as [|c s IH]; [done|].
  unfold String.rev. simpl. rewrite string_rev_app_spec, blank_app, IH. simpl.
  by rewrite andb_true_r, andb_comm.
Qed.

Lemma lstrip_blank_app (a s : string) :
  blank a = true → lstrip (a +:+ s) = lstrip s.
Proof.
  induction a as [|c a IH]; [done|].
  change (String c a +:+ s) with (String c (a +:+ s)). simpl.
  intros [Hc Ha]%andb_true_iff. rewrite Hc. auto.
Qed.

Lemma lstrip_blank (b : string) : blank b = true → lstrip b = "".
Proof.
  intros Hb. rewrite <-(string_app_empty_r b). by rewrite lstrip_blank_app.
Qed.

Lemma lstrip_id (s : string) : starts_blank s = false → lstrip s = s.
Proof. destruct s as [|c s]; [done|]. simpl. by intros ->. Qed.

(** [strip] removes the white space around a trimmed string, and
    nothing else. *)
Lemma strip_spec (a m b : string) :
  blank a = true → blank b = true → trimmed m = true →
  strip (a +:+ m +:+ b) = m.
Proof.
  intros Ha Hb [Hs He]%andb_true_iff.
  apply negb_true_iff in Hs, He.
  unfold strip. rewrite lstrip_blank_app by done.
  destruct m as [|c m].
  - change ("" +:+ b) with b. by rewrite (lstrip_blank b).
  - rewrite (lstrip_id (String c m +:+ b)) by done.
    rewrite string_rev_app_distr, (lstrip_blank_app (String.rev b))
      by (by rewrite blank_rev).
    by rewrite (lstrip_id (String.rev _)), string_rev_involutive.
Qed.

Lemma last_char_app (a b : string) :
  b ≠ "" → last_char (a +:+ b) = last_char b.
Proof.
  intros Hb. induction a as [|c a IH]; [done|].
  change (String c a +:+ b) with (String c (a +:+ b)). simpl.
  rewrite IH. destruct (a +:+ b) eqn:Hab; [|done].
  apply (f_equal String.length) in Hab. rewrite string_length_app in Hab.
  destruct b; [done|]. simpl in Hab. lia.
Qed.

Lemma string_app_inj_r (a b c : string) : a +:+ c = b +:+ c → a = b.
Proof.
  revert b. induction a as [|x a IH]; intros [|y b] Heq; [done| | |].
  - apply (f_equal String.length) in Heq.
    change ("" +:+ c) with c in Heq. rewrite string_length_app in Heq.
    simpl in Heq. lia.
  - apply (f_equal String.length) in Heq.
    change ("" +:+ c) with c in Heq. rewrite string_length_app in Heq.
    simpl in Heq. lia.
  - change (String x (a +:+ c) = String y (b +:+ c)) in Heq.
    injection Heq as -> Heq. f_equal. by apply IH.
Qed.

(** Two paths that differ by a common suffix without a slash name the
    same file only if the paths without it do. *)
Lemma entry_app_inj rd (p q a : string) :
  has_slash a = false → entry rd (p +:+ a) = entry rd (q +:+ a) →
  entry rd p = entry rd q.
Proof.
  intros Ha. rewrite !entry_app by done. intros [= Hd Hb].
  apply string_app_inj_r in Hb. unfold entry. by rewrite Hd, Hb.
Qed.

(** The name of the file at [dir + '/' + name]. *)
Lemma basename_slash (dir name : string) :
  has_slash name = false → basename (dir +:+ String slash name) = name.
Proof.
  intros Hn. induction dir as [|c dir IH].
  - change ("" +:+ String slash name) with (String slash name). simpl.
    by rewrite Hn.
  - change (String c dir +:+ String slash name)
      with (String c (dir +:+ String slash name)). simpl.
    rewrite has_slash_app. simpl. by rewrite orb_true_r.
Qed.

(** No file has a name that ends in [.gz] and is [patch.tmp]. *)
Lemma entry_gz_ne_patch_tmp rd (p dir : string) :
  entry rd (p +:+ ".gz") ≠ entry rd (dir +:+ "/patch.tmp").
Proof.
  rewrite entry_app by done. unfold entry.
  change "/patch.tmp" with (String slash "patch.tmp").
  rewrite (basename_slash dir "patch.tmp") by done. intros [= _ Heq].
  apply (f_equal last_char) in Heq. rewrite last_char_app in Heq by done.
  discriminate Heq.
Qed.

(** ** The tool locator *)

Lemma resolve_run E get set name st :
  resolve E get set name st
  = if truthy (get (bins st)) then (Ok (), st)
    else match which E name with
         | Some out => (Ok (), with_bins (set (strip out) (bins st)) st)
         | None => (Err (not_on_path name), st)
         end.
Proof.
  unfold resolve, mbind, M_bind, global, find_binary. simpl.
  destruct (truthy (get (bins st))); [done|].
  by destruct (which E name).
Qed.

(** One [resolve] of the locator, from globals whose truth values are
    known: the answer of [which] is examined when it is asked for. *)
Ltac locator_step :=
  rewrite resolve_run;
  cbn [bins with_bins files trace truthy fst snd
       bsdiff_path gzip_path head_path tail_path bunzip2_path
       set_bsdiff_path set_gzip_path set_head_path set_tail_path
       set_bunzip2_path];
  try match goal with
      | |- context [match which ?E ?n with _ => _ end] =>
          destruct (which E n) eqn:?
      end;
  cbn [bins with_bins files trace truthy fst snd
       bsdiff_path gzip_path head_path tail_path bunzip2_path
       set_bsdiff_path set_gzip_path set_head_path set_tail_path
       set_bunzip2_path].

Lemma find_bins_or_die_result E st :
  (find_bins_or_die E st).1
  = match find (λ name, bool_decide (which E name = None)) (wanted (bins st))
    with
    | Some name => Err (not_on_path name)
    | None => Ok ()
    end.
Proof.
  destruct st as [fs [b g h t z] tr].
  unfold find_bins_or_die, mbind, M_bind. cbn [bins].
  destruct b, g, h, t, z.
  all: match goal with
       | |- context [wanted ?g] =>
           let w := eval vm_compute in (wanted g) in change (wanted g) with w
       end; cbn [find].
  all: repeat locator_step.
  all: repeat match goal with
         | H : which ?E ?n = _ |- context [which ?E ?n] => rewrite H
         | |- context [bool_decide (which ?E ?n = None)] =>
             destruct (which E n) eqn:?
         end; try reflexivity.
Qed.

Lemma find_bins_or_die_files_trace E st :
  files (find_bins_or_die E st).2 = files st ∧
  trace (find_bins_or_die E st).2 = trace st.
Proof. by rewrite find_bins_or_die_locate. Qed.

Lemma find_bins_or_die_bins E st name get :
  (name, get) ∈ tools →
  let run := find_bins_or_die E st in
  (truthy (get (bins st)) = true → get (bins run.2) = get (bins st)) ∧
  (get (bins run.2) = get (bins st)
   ∨ ∃ out, which E name = Some out ∧ get (bins run.2) = strip out) ∧
  (run.1 = Ok () → truthy (get (bins st)) = false →
   ∃ out, which E name = Some out ∧ get (bins run.2) = strip out).
Proof.
  intros Hin. unfold tools in Hin. rewrite !elem_of_cons in Hin.
  destruct st as [fs [b g h t z] tr].
  unfold find_bins_or_die, mbind, M_bind.
  destruct_or!; simplify_eq/=; try by apply elem_of_nil in Hin.
  all: destruct b, g, h, t, z.
  all: repeat locator_step.
  all: repeat split; try done; eauto.
Qed.

Lemma find_bins_or_die_set E st :
  wanted (bins st) = [] → find_bins_or_die E st = (Ok (), st).
Proof.
  destruct st as [fs [b g h t z] tr]. cbn [bins].
  destruct b, g, h, t, z; try (intros Hw; vm_compute in Hw; discriminate Hw).
  intros _. unfold find_bins_or_die, mbind, M_bind.
  by repeat locator_step.
Qed.

Lemma wanted_nil g :
  (∀ name get, (name, get) ∈ tools → truthy (get g) = true) → wanted g = [].
Proof.
  intros Hset.
  pose proof (Hset "bsdiff" bsdiff_path ltac:(solve_elem)) as H1.
  pose proof (Hset "gzip" gzip_path ltac:(solve_elem)) as H2.
  pose proof (Hset "head" head_path ltac:(solve_elem)) as H3.
  pose proof (Hset "tail" tail_path ltac:(solve_elem)) as H4.
  pose proof (Hset "bunzip2" bunzip2_path ltac:(solve_elem)) as H5.
  destruct g as [b g h t z]. simpl in *.
  by destruct b, g, h, t, z.
Qed.

(** Rules of symbolic execution that keep what the locator answered. *)
Lemma wp_find_bins_or_die_result E (Q : result unit → state → Prop) st :
  (∀ g,
     match find (λ n, bool_decide (which E n = None)) (wanted (bins st)) with
     | Some name => Q (Err (not_on_path name)) (with_bins g st)
     | None => Q (Ok ()) (with_bins g st)
     end) →
  wp (find_bins_or_die E) Q st.
Proof.
  intros HQ. unfold wp.
  pose proof (find_bins_or_die_result E st) as Hr.
  rewrite find_bins_or_die_locate in Hr |- *. cbn [fst snd] in Hr |- *.
  rewrite Hr. specialize (HQ (locate E (bins st)).2).
  by destruct (find _ _).
Qed.

Lemma wp_find_bins_or_die_located E (Q : result unit → state → Prop) st :
  Q (locate E (bins st)).1 (with_bins (locate E (bins st)).2 st) →
  wp (find_bins_or_die E) Q st.
Proof. unfold wp. by rewrite find_bins_or_die_locate. Qed.

(** Where every tool is installed the locator does not fail. *)
Lemma wp_find_bins_or_die_posix cd (Q : result unit → state → Prop) st :
  (∀ g, Q (Ok ()) (with_bins g st)) → wp (find_bins_or_die (posix cd)) Q st.
Proof.
  intros HQ. apply wp_find_bins_or_die_result. intros g.
  induction (wanted (bins st)) as [|name l IH]; [apply HQ|exact IH].
Qed.

(** ** Runs in which the first tools succeed *)

Section wp_posix_ok.
Context (cd : codecs).
Implicit Types (st : state).
Local Abbreviation K := (realpath (posix cd)).

Lemma wp_posix_bsdiff_ok bin o n t ob nb (Q : result bytes → state → Prop) st :
  files st !! K o = Some ob → files st !! K n = Some nb →
  Q (Ok []) (ran (Bsdiff bin o n t) 0 []
                 (<[K t := bsdiff_fn cd ob nb]> (files st)) st) →
  wp (check_output (posix cd) (Bsdiff bin o n t)) Q st.
Proof.
  intros Ho Hn HQ. unfold wp, check_output. cbn [exec posix posix_exec].
  unfold realpath in *. cbn [realdir posix] in *. by rewrite Ho, Hn.
Qed.

Lemma wp_posix_head_ok bin k f to x (Q : result Z → state → Prop) st :
  files st !! K f = Some x →
  Q (Ok 0%Z) (ran (Head bin k f) 0 (take k x)
                  (<[K to := take k x]> (files st)) st) →
  wp (popen_wait (posix cd) (Head bin k f) to) Q st.
Proof.
  intros Hf HQ. unfold wp, popen_wait. cbn [exec posix posix_exec].
  unfold realpath in *. cbn [realdir posix] in *. by rewrite Hf.
Qed.

Lemma wp_posix_tail_ok bin k f to x (Q : result Z → state → Prop) st :
  files st !! K f = Some x →
  Q (Ok 0%Z) (ran (Tail bin k f) 0 (drop (pred k) x)
                  (<[K to := drop (pred k) x]> (files st)) st) →
  wp (popen_wait (posix cd) (Tail bin k f) to) Q st.
Proof.
  intros Hf HQ. unfold wp, popen_wait. cbn [exec posix posix_exec].
  unfold realpath in *. cbn [realdir posix] in *. by rewrite Hf.
Qed.

(** When the payload is not a bzip2 stream, bunzip2 exits with 2 and
    leaves its input. *)
Lemma wp_posix_bunzip2_corrupt bin f b (Q : result bytes → state → Prop) st :
  files st !! K f = Some b →
  files st !! K (bunzip2_target f) = None →
  bunzip2_fn cd b = None →
  Q (Err (CalledProcessError 2 (Bunzip2 bin f)))
    (ran (Bunzip2 bin f) 2 [] (files st) st) →
  wp (check_output (posix cd) (Bunzip2 bin f)) Q st.
Proof.
  intros Hf Ht Hd HQ. unfold wp, check_output. cbn [exec posix posix_exec].
  unfold realpath in *. cbn [realdir posix] in *.
  rewrite Hf, Ht, Hd. by rewrite decide_False by (by intros [? ?]).
Qed.

End wp_posix_ok.

(** One step of a run in which every file a tool needs is there, up to
    bunzip2. *)
Ltac solve_lookup :=
  wp_norm; lookup_norm; first [ eassumption | reflexivity ].

Ltac wp_ok_step :=
  lazymatch goal with
  | |- wp (check_output (posix _) (Bsdiff _ _ _ _)) _ _ =>
      eapply wp_posix_bsdiff_ok; [solve_lookup|solve_lookup|]
  | |- wp (popen_wait (posix _) (Head _ _ _) _) _ _ =>
      eapply wp_posix_head_ok; [solve_lookup|]
  | |- wp (popen_wait (posix _) (Tail _ _ _) _) _ _ =>
      eapply wp_posix_tail_ok; [solve_lookup|]
  | |- wp (check_ret_code 0 _) _ _ => apply wp_check_ret_code_0
  | |- wp (check_output (posix _) (Bunzip2 _ _)) _ _ =>
      fail "bunzip2 is stepped by hand"
  | |- wp (find_bins_or_die (posix _)) _ _ =>
      apply wp_find_bins_or_die_posix; intros ?
  | |- _ => wp_step
  end; wp_norm; cbn [take drop pred app].

Lemma calculate_sizes_corrupt cd old_file new_file save_patch_path temp_path st
    ob nb :
  let K := realpath (posix cd) in
  files st !! K old_file = Some ob →
  files st !! K new_file = Some nb →
  bunzip2_fn cd (drop 32 (bsdiff_fn cd ob nb)) = None →
  K old_file ∉ work_files (posix cd) save_patch_path temp_path →
  K new_file ∉ work_files (posix cd) save_patch_path temp_path →
  wp (calculate_sizes (posix cd) old_file new_file save_patch_path temp_path)
     (λ r st',
        r = Err (CalledProcessError 2
                   (Bunzip2 (bunzip2_path (bins st'))
                      ((temp_path +:+ ".raw_bsdiff") +:+ ".bz2"))) ∧
        ∀ k, files st' !! k
             = if decide (k = K temp_path) then Some (bsdiff_fn cd ob nb)
               else if decide (k = K (temp_path +:+ ".raw_bsdiff_header"))
                    then Some []
               else if decide (k = K ((temp_path +:+ ".raw_bsdiff") +:+ ".bz2"))
                    then Some (drop 32 (bsdiff_fn cd ob nb))
               else if decide (k ∈ [ K (temp_path +:+ ".gz");
                                     K (temp_path +:+ ".raw_bsdiff");
                                     K ((temp_path +:+ ".raw_bsdiff")
                                        +:+ ".gz") ])
                    then None
               else files st !! k) st.
Proof.
  intros K. subst K. unfold calculate_sizes, work_files, work_paths.
  generalize (rebuilt_path save_patch_path (temp_path +:+ ".raw_bsdiff")).
  intros rebuilt Hold Hnew Hd Ho Hn.
  rewrite !fmap_cons, !not_elem_of_cons in Ho, Hn. destruct_and!.
  destruct st as [fs g tr]. cbn [files] in *.
  cbv zeta. repeat wp_ok_step.
  eapply wp_posix_bunzip2_corrupt; rewrite ?bunzip2_target_bz2;
    [solve_lookup|solve_lookup|eassumption|]. wp_norm.
  split; [done|]. intros p.
  repeat case_decide; subst; try by lookup_norm.
  - match goal with H : _ ∈ _ |- _ => rename H into Hin end.
    rewrite !elem_of_cons in Hin. destruct_or!; subst; try done;
      try by lookup_norm.
    by apply elem_of_nil in Hin.
  - match goal with H : _ ∉ _ |- _ => rename H into Hin end.
    rewrite !not_elem_of_cons in Hin. destruct_and!. by lookup_norm.
Qed.

(** ** Every run, on any host *)

Lemma calculate_sizes_missing_tool E old_file new_file save_patch_path
    temp_path st name :
  find (λ n, bool_decide (which E n = None)) (wanted (bins st)) = Some name →
  wp (calculate_sizes E old_file new_file save_patch_path temp_path)
     (λ r st',
        r = Err (not_on_path name) ∧ trace st' = trace st ∧
        files st' = delete (realpath E temp_path)
                      (delete (realpath E (temp_path +:+ ".gz")) (files st)))
     st.
Proof.
  intros Hfind. unfold calculate_sizes. destruct st as [fs g tr].
  do 2 (wp_step; wp_step). wp_step.
  apply wp_find_bins_or_die_result. intros g'. wp_norm.
  cbn [bins] in Hfind. by rewrite Hfind.
Qed.

(** The call changes the globals through the tool locator only. *)
Lemma calculate_sizes_bins E old_file new_file save_patch_path temp_path st :
  wp (calculate_sizes E old_file new_file save_patch_path temp_path)
     (λ r st', bins st' = (locate E (bins st)).2) st.
Proof.
  unfold calculate_sizes. destruct st as [fs g tr]. cbv zeta.
  do 2 (wp_step; wp_step). wp_step.
  apply wp_find_bins_or_die_located. wp_norm.
  generalize (locate E g). intros [[[]|e] g']; cbn [fst snd]; [|done].
  wp_norm. repeat wp_step; done.
Qed.

(** When the diff tool exits non-zero the call is over: the state it
    ends in is the one the tool left. *)
Lemma calculate_sizes_bsdiff_fails E old_file new_file save_patch_path
    temp_path st g rc out fs1 :
  let c := Bsdiff (bsdiff_path g) old_file new_file temp_path in
  locate E (bins st) = (Ok (), g) →
  exec E c (delete (realpath E temp_path)
              (delete (realpath E (temp_path +:+ ".gz")) (files st)))
    = (rc, out, fs1) →
  rc ≠ 0%Z →
  calculate_sizes E old_file new_file save_patch_path temp_path st
  = (Err (CalledProcessError rc c),
     {| files := fs1; bins := g; trace := trace st ++ [Ran c rc out] |}).
Proof.
  intros c Hloc Hexec Hrc.
  enough (wp (calculate_sizes E old_file new_file save_patch_path temp_path)
            (λ r st', r = Err (CalledProcessError rc c) ∧
                      st' = {| files := fs1; bins := g;
                               trace := trace st ++ [Ran c rc out] |}) st)
    as Hwp.
  { unfold wp in Hwp. destruct (calculate_sizes _ _ _ _ _ _) as [r st'].
    destruct Hwp as [Hr Hst]. simpl in Hr, Hst. by subst. }
  unfold calculate_sizes. destruct st as [fs g0 tr].
  cbn [files bins trace] in *.
  do 2 (wp_step; wp_step). wp_step.
  apply wp_find_bins_or_die_located. wp_norm. rewrite Hloc. cbn [fst snd].
  wp_norm. do 3 wp_step.
  apply wp_check_output. wp_norm. intros rc' out' fs' Hex.
  fold c in Hex. rewrite Hexec in Hex. by simplify_eq.
Qed.

Ltac solve_growth :=
  first [ by rewrite app_nil_r
        | rewrite <-?app_assoc; reflexivity ].

Ltac solve_quiet := unfold quiet; by repeat constructor.

Lemma calculate_sizes_script E old_file new_file save_patch_path temp_path st :
  wp (calculate_sizes E old_file new_file save_patch_path temp_path)
     (λ r st',
        ∃ tr, trace st' = trace st ++ tr ∧
              ev_cmd <$> tr `prefix_of`
                script (bins st') old_file new_file save_patch_path temp_path ∧
              match r with
              | Ok _ =>
                  ev_cmd <$> tr
                  = script (bins st') old_file new_file save_patch_path
                      temp_path ∧
                  quiet tr
              | Err _ => True
              end) st.
Proof.
  unfold calculate_sizes. wp_run.
  all: eexists; split; [solve_growth|]; cbn [fmap list_fmap app ev_cmd].
  all: unfold script; cbv zeta; try (split; [by eexists|done]).
  split; [by eexists|]. split; [done|solve_quiet].
Qed.

Lemma snoc_split {X : Type} (l t tr0 : list X) (ev : X) :
  l = t ++ tr0 → l ++ [ev] = t ++ tr0 ++ [ev].
Proof. intros ->. by rewrite app_assoc. Qed.

Lemma calculate_sizes_errors E old_file new_file save_patch_path temp_path st :
  wp (calculate_sizes E old_file new_file save_patch_path temp_path)
     (λ r st', ∀ e, r = Err e →
        (∃ name, name ∈ wanted (bins st) ∧ which E name = None ∧
                 e = not_on_path name ∧ trace st' = trace st)
        ∨ (∃ tr0 ev, trace st' = trace st ++ tr0 ++ [ev] ∧ quiet tr0 ∧
                     ev_status ev ≠ 0%Z ∧ e = raised_for ev)
        ∨ (∃ tr, trace st' = trace st ++ tr ∧ quiet tr ∧
                 e = OSError (rebuilt_path save_patch_path
                                (temp_path +:+ ".raw_bsdiff") +:+ ".gz") ∧
                 files st'
                   !! realpath E
                        (rebuilt_path save_patch_path
                           (temp_path +:+ ".raw_bsdiff") +:+ ".gz") = None)) st.
Proof.
  unfold calculate_sizes. destruct st as [fs g tr]. cbv zeta.
  do 2 (wp_step; wp_step). wp_step.
  apply wp_find_bins_or_die_result. intros g'. wp_norm.
  destruct (find _ _) as [name|] eqn:Hfind.
  { intros e [= <-]. left. apply find_some in Hfind as [Hin Hwhich].
    apply bool_decide_eq_true in Hwhich.
    apply list_elem_of_In in Hin. by exists name. }
  repeat wp_step.
  all: intros e He; simplify_eq/=.
  all: try (right; left; do 2 eexists;
            split; [apply snoc_split; solve_growth|];
            split; [solve_quiet|]; by split).
  all: try match goal with
           | H : <[_:=_]> _ !! _ = None |- _ => by rewrite lookup_insert_eq in H
           end.
  right. right. eexists. split; [solve_growth|]. split; [solve_quiet|].
  by split.
Qed.

(** ** The command line *)

(** Either a check fails, and [main] raises its message at once, or the
    arguments are accepted, and [main] is the pipeline followed by the
    measure of the new file. *)
Lemma main_run O E a st :
  (¬ accepted O E a st ∧
   ∃ msg, msg ∈ rejections a ∧ main O E a st = (Err (Exception msg), st))
  ∨ (accepted O E a st ∧
     main O E a st
     = let run := calculate_sizes E (args.old_file a) (args.new_file a)
                    (args.save_patch a) (args.temp_dir a +:+ "/patch.tmp") st
       in match run.1 with
          | Ok v =>
              match files run.2 !! realpath E (args.new_file a) with
              | Some b =>
                  (Ok {| new_file_size := length b;
                         gzipped_size := gzipped_new_file_size v;
                         bsdiff_size := bsdiff_patch_size v |}, run.2)
              | None => (Err (OSError (args.new_file a)), run.2)
              end
          | Err e => (Err e, run.2)
          end).
Proof.
  unfold main, accepted, rejections. destruct a as [old new save temp].
  cbn [args.old_file args.new_file args.save_patch args.temp_dir].
  generalize (calculate_sizes E old new save (temp +:+ "/patch.tmp")).
  intros m.
  unfold mbind, M_bind, isfile, stat_size, raise, mret, M_ret. cbv zeta.
  case_bool_decide as Hold; cbn [negb]; cycle 1.
  { left. split; [tauto|]. eexists. split; [|done]. set_solver. }
  case_bool_decide as Hnew; cbn [negb]; cycle 1.
  { left. split; [tauto|]. eexists. split; [|done]. set_solver. }
  destruct save as [p|]; cbn [default].
  - destruct (truthy p) eqn:Hp; cbn [andb].
    + destruct (parent_writable O p) eqn:Hw; cbn [negb]; cycle 1.
      { left. split; [|eexists; split; [|done]; set_solver].
        intros (_ & _ & Hs & _). destruct (Hs p eq_refl Hp); congruence. }
      destruct (isdir O p) eqn:Hd.
      { left. split; [|eexists; split; [|done]; set_solver].
        intros (_ & _ & Hs & _). destruct (Hs p eq_refl Hp); congruence. }
      destruct (isdir O temp) eqn:Ht; cbn [negb]; cycle 1.
      { left. split; [|eexists; split; [|done]; set_solver].
        intros (_ & _ & _ & ?). congruence. }
      right. split.
      { split; [done|]. split; [done|]. split; [|done].
        by intros q [= <-] _. }
      destruct (m st) as [[v|e] st1]; cbn [fst snd]; [|done].
      by destruct (files st1 !! realpath E new).
    + destruct (isdir O temp) eqn:Ht; cbn [negb]; cycle 1.
      { left. split; [|eexists; split; [|done]; set_solver].
        intros (_ & _ & _ & ?). congruence. }
      right. split.
      { split; [done|]. split; [done|]. split; [|done].
        intros q [= <-] ?. congruence. }
      destruct (m st) as [[v|e] st1]; cbn [fst snd]; [|done].
      by destruct (files st1 !! realpath E new).
  - destruct (isdir O temp) eqn:Ht; cbn [negb]; cycle 1.
    { left. split; [|eexists; split; [|done]; set_solver].
      intros (_ & _ & _ & ?). congruence. }
    right. split; [by split; [|split; [|split]]|].
    destruct (m st) as [[v|e] st1]; cbn [fst snd]; [|done].
    by destruct (files st1 !! realpath E new).
Qed.

(** The state [main] ends in is the one the pipeline ends in. *)
Lemma main_state O E a st :
  accepted O E a st →
  (main O E a st).2
  = (calculate_sizes E (args.old_file a) (args.new_file a) (args.save_patch a)
       (args.temp_dir a +:+ "/patch.tmp") st).2.
Proof.
  intros Hacc. destruct (main_run O E a st) as [[Hrej _]|[_ ->]]; [done|].
  cbv zeta.
  destruct (calculate_sizes _ _ _ _ _ _) as [[v|e] st1]; cbn [fst snd]; [|done].
  by destruct (files st1 !! realpath E (args.new_file a)).
Qed.

(** * The claims *)

(** Deciding a closed proposition by evaluation. *)
Ltac by_evaluation := apply (bool_decide_unpack _); vm_compute; exact I.

(** ** C1: the rebuilt patch *)

(** C1 does not hold of the code.  In an ordinary run the patch that cat
    writes, the fifth process of the trace, is the decompressed payload
    alone: the 32 header bytes of the bsdiff output are missing from it,
    and from the gzip file measured. *)
Theorem rebuilt_patch_lacks_header :
  good_run.1 = Ok {| gzipped_new_file_size := 20; bsdiff_patch_size := 27 |} ∧
  take 32 toy_raw = toy_header ∧
  bunzip2_fn toy (drop 32 toy_raw) = Some toy_payload ∧
  trace good_run.2 !! 4
    = Some (Ran (Cat "/tmp/patch.tmp.raw_bsdiff_header"
                     "/tmp/patch.tmp.raw_bsdiff") 0 toy_payload) ∧
  files good_run.2 !! file "/tmp/patch.tmp.raw_bsdiff.rebuilt.gz"
    = Some (gzip_fn toy 9 "/tmp/patch.tmp.raw_bsdiff.rebuilt" toy_payload) ∧
  toy_payload ≠ toy_header ++ toy_payload.
Proof.
  repeat split; try (vm_compute; reflexivity).
  intros Heq. vm_compute in Heq. discriminate Heq.
Qed.

(** ** C2: the split at byte 32 *)

(** C2 does not hold of the code.  In an ordinary run head, the second
    process, is run on the header file itself, which was just opened for
    writing: it prints nothing and the header file stays empty, while the
    bsdiff output has a 32-byte header.  The remainder that tail, the
    third process, writes is right. *)
Theorem header_file_is_empty :
  trace good_run.2 !! 0
    = Some (Ran (Bsdiff "/usr/bin/bsdiff" "old.apk" "new.apk" "/tmp/patch.tmp")
                0 []) ∧
  trace good_run.2 !! 1
    = Some (Ran (Head "/usr/bin/head" 32 "/tmp/patch.tmp.raw_bsdiff_header")
                0 []) ∧
  trace good_run.2 !! 2
    = Some (Ran (Tail "/usr/bin/tail" 33 "/tmp/patch.tmp")
                0 (drop 32 toy_raw)) ∧
  files good_run.2 !! file "/tmp/patch.tmp.raw_bsdiff_header" = Some [] ∧
  32 ≤ length toy_raw ∧
  take 32 toy_raw ≠ [].
Proof.
  repeat split; try (vm_compute; reflexivity).
  - by_evaluation.
  - intros Heq. vm_compute in Heq. discriminate Heq.
Qed.

(** ** C3: what is left in the work area *)

(** C3, as amended.  A call that returns has removed [temp_path] and
    [temp_path + '.raw_bsdiff.gz'], the two paths of its clean-up block;
    with the documented tools, the .bz2 payload and the uncompressed
    rebuilt patch are gone as well, consumed by bunzip2 and gzip.  A call
    that raises cleans up nothing: when a process has exited non-zero,
    the file system after the call is the one that process left, with its
    output in the file it was redirected to. *)
Theorem cleanup_only_on_return E old_file new_file save_patch_path temp_path
    st r st' :
  calculate_sizes E old_file new_file save_patch_path temp_path st = (r, st') →
  let raw_bsdiff_path := temp_path +:+ ".raw_bsdiff" in
  match r with
  | Ok _ =>
      files st' !! realpath E temp_path = None ∧
      files st' !! realpath E (raw_bsdiff_path +:+ ".gz") = None ∧
      ∀ cd, E = posix cd →
        files st' !! realpath E (raw_bsdiff_path +:+ ".bz2") = None ∧
        files st' !! realpath E (rebuilt_path save_patch_path raw_bsdiff_path)
          = None
  | Err _ =>
      ∀ tr0 ev,
        trace st' = trace st ++ tr0 ++ [ev] →
        ev_status ev ≠ 0%Z →
        ∃ fs0 fs1,
          exec E (ev_cmd ev) fs0 = (ev_status ev, ev_stdout ev, fs1) ∧
          files st'
          = match redirected_to save_patch_path temp_path (ev_cmd ev) with
            | Some p => <[realpath E p := ev_stdout ev]> fs1
            | None => fs1
            end
  end.
Proof.
  intros Hrun raw_bsdiff_path.
  pose proof (wp_run _ _ _ _ _ (calculate_sizes_cleanup _ _ _ _ _ _) Hrun)
    as Hclean.
  destruct r as [v|e]; [|exact Hclean].
  destruct Hclean as [Htemp Hgz]. split; [done|]. split; [done|].
  intros cd ->.
  exact (wp_run _ _ _ _ _ (calculate_sizes_consumed _ _ _ _ _ _) Hrun).
Qed.

Lemma cleanup_only_on_return_witness :
  files good_run.2 !! file "/tmp/patch.tmp" = None ∧
  files good_run.2 !! file "/tmp/patch.tmp.raw_bsdiff.gz" = None ∧
  files good_run.2 !! file "/tmp/patch.tmp.raw_bsdiff.bz2" = None ∧
  files good_run.2 !! file "/tmp/patch.tmp.raw_bsdiff.rebuilt" = None.
Proof.
  assert (calculate_sizes (posix toy) "old.apk" "new.apk" None "/tmp/patch.tmp"
            (boot two_apks)
          = (Ok {| gzipped_new_file_size := 20; bsdiff_patch_size := 27 |},
             good_run.2)) as Hrun by (vm_compute; reflexivity).
  destruct (cleanup_only_on_return _ _ _ _ _ _ _ _ Hrun)
    as (Htemp & Hgz & Htools).
  destruct (Htools toy eq_refl) as [Hbz Hrebuilt].
  exact (conj Htemp (conj Hgz (conj Hbz Hrebuilt))).
Defined.

(** C3 fails as stated.  In the run of the repository's failure test
    the call raises and the header file, which did not exist before, is
    left behind.  When bunzip2 rejects the payload the call raises and
    leaves the bsdiff output, the header file and the .bz2 payload. *)
Lemma failed_run_leaves_artifacts :
  (mock_run.1 = Err (Exception "Problem at the bsdiff step, returned code: -1") ∧
   files mock_run.2 !! file "/tmp/patch.tmp.raw_bsdiff_header" = Some []) ∧
  (corrupt_run.1
     = Err (CalledProcessError 2
              (Bunzip2 "/usr/bin/bunzip2" "/tmp/patch.tmp.raw_bsdiff.bz2")) ∧
   dom two_apks = {[file "old.apk"; file "new.apk"]} ∧
   files corrupt_run.2 !! file "/tmp/patch.tmp" = Some (toy_header ++ new_apk) ∧
   files corrupt_run.2 !! file "/tmp/patch.tmp.raw_bsdiff_header" = Some [] ∧
   files corrupt_run.2 !! file "/tmp/patch.tmp.raw_bsdiff.bz2" = Some new_apk).
Proof. repeat split; first [by_evaluation | vm_compute; reflexivity]. Qed.

(** A call that returns leaves artifacts too: without a path to save the
    patch, the header file, the decompressed payload and the gzipped
    patch are still in the work area. *)
Remark returned_run_leaves_artifacts :
  dom (files good_run.2)
  = {[ file "old.apk"; file "new.apk"; file "/tmp/patch.tmp.raw_bsdiff_header";
       file "/tmp/patch.tmp.raw_bsdiff";
       file "/tmp/patch.tmp.raw_bsdiff.rebuilt.gz" ]}.
Proof. by_evaluation. Qed.

(** ** C4: a failing step aborts the call *)

(** C4, as amended.  When a process started by the pipeline exits with a
    non-zero status, it is the last process the pipeline runs, every
    process before it exited 0, and the call raises instead of returning
    a dictionary.  The error carries the exit status and is raised for no
    other step; it names the step that failed, except that a failure of
    head is reported as a problem at the bsdiff step. *)
Theorem failing_step_aborts E old_file new_file save_patch_path temp_path
    st r st' tr ev :
  calculate_sizes E old_file new_file save_patch_path temp_path st = (r, st') →
  trace st' = trace st ++ tr →
  ev ∈ tr →
  ev_status ev ≠ 0%Z →
  (∃ tr0, tr = tr0 ++ [ev] ∧ quiet tr0) ∧
  ∃ e, r = Err e ∧ carries_status e (ev_status ev) ∧
       (∀ ev', raised_for ev' = e → step_of (ev_cmd ev') = step_of (ev_cmd ev)) ∧
       names_step e = Some (reported_step (step_of (ev_cmd ev))).
Proof.
  intros Hrun Htr Hin Hnz.
  pose proof (wp_run _ _ _ _ _ (calculate_sizes_shaped _ _ _ _ _ _) Hrun) as Hs.
  simpl in Hs. rewrite Htr in Hs.
  destruct (shaped_inv _ _ _ _ Hs Hin Hnz) as [Hlast ->].
  split; [done|]. exists (raised_for ev).
  auto using carries_status_raised, names_step_raised, raised_for_step.
Qed.

Lemma failing_step_aborts_witness :
  let ev := Ran (Head "" 32 "/tmp/patch.tmp.raw_bsdiff_header") (-1) [] in
  let tr := [Ran (Bsdiff "" "" "" "/tmp/patch.tmp") 0 []; ev] in
  trace mock_run.2 = [] ++ tr ∧
  (∃ tr0, tr = tr0 ++ [ev] ∧ quiet tr0) ∧
  ∃ e, mock_run.1 = Err e ∧ carries_status e (-1) ∧
       (∀ ev', raised_for ev' = e → step_of (ev_cmd ev') = HeadStep) ∧
       names_step e = Some DiffStep.
Proof.
  intros ev tr. split; [reflexivity|].
  apply (failing_step_aborts mocked "" "" None "/tmp/patch.tmp" (boot ∅)
           mock_run.1 mock_run.2 tr ev).
  - vm_compute. reflexivity.
  - vm_compute. reflexivity.
  - apply list_elem_of_In. simpl. auto.
  - discriminate.
Defined.

(** C4 fails as stated: in the run of the repository's own failure test
    the process that exits with -1 is head, and the error raised names
    the bsdiff step. *)
Lemma head_failure_blames_bsdiff :
  let ev := Ran (Head "" 32 "/tmp/patch.tmp.raw_bsdiff_header") (-1) [] in
  let e := Exception "Problem at the bsdiff step, returned code: -1" in
  mock_run.1 = Err e ∧
  last (trace mock_run.2) = Some ev ∧
  ev_status ev ≠ 0%Z ∧
  names_step e = Some DiffStep ∧
  names_step e ≠ Some (step_of (ev_cmd ev)).
Proof. by repeat split. Qed.

(** ** C5: failure of the diff tool *)

(** C5, as amended.  The diff tool is run on the file system from which
    the stale [temp_path] and [temp_path + '.gz'] have been removed, from
    the path the tool locator gives.  If it exits with a non-zero status,
    the call raises the [CalledProcessError] of the bsdiff command with
    that status, which names the diff step, and nothing else is run or
    removed: the files after the call are exactly those the diff tool
    left. *)
Theorem bsdiff_failure_raises E old_file new_file save_patch_path temp_path
    st g rc out fs1 :
  let c := Bsdiff (bsdiff_path g) old_file new_file temp_path in
  locate E (bins st) = (Ok (), g) →
  exec E c (delete (realpath E temp_path)
              (delete (realpath E (temp_path +:+ ".gz")) (files st)))
    = (rc, out, fs1) →
  rc ≠ 0%Z →
  calculate_sizes E old_file new_file save_patch_path temp_path st
  = (Err (CalledProcessError rc c),
     {| files := fs1; bins := g; trace := trace st ++ [Ran c rc out] |}) ∧
  names_step (CalledProcessError rc c) = Some DiffStep ∧
  carries_status (CalledProcessError rc c) rc.
Proof.
  intros c Hloc Hexec Hrc. split; [|done].
  by apply calculate_sizes_bsdiff_fails.
Qed.

Lemma bsdiff_failure_raises_witness :
  let c := Bsdiff "/usr/bin/bsdiff" "old.apk" "new.apk" "/tmp/patch.tmp" in
  failed_diff_run.1 = Err (CalledProcessError 1 c) ∧
  trace failed_diff_run.2 = [Ran c 1 []] ∧
  files failed_diff_run.2 = no_old_apk ∧
  names_step (CalledProcessError 1 c) = Some DiffStep.
Proof.
  intros c.
  destruct (bsdiff_failure_raises (posix toy) "old.apk" "new.apk" None
              "/tmp/patch.tmp" (boot no_old_apk) (bins located) 1 [] no_old_apk)
    as (Hrun & Hstep & _).
  - vm_compute. reflexivity.
  - vm_compute. reflexivity.
  - discriminate.
  - unfold failed_diff_run. rewrite Hrun. by repeat split.
Defined.

(** C5 fails as stated: a diff tool that has written part of the patch
    when it exits with status 1 leaves that file at [temp_path], where
    there was none before the call; the call raises and removes
    nothing. *)
Lemma crashed_diff_leaves_partial_patch :
  let c := Bsdiff "/usr/bin/bsdiff" "old.apk" "new.apk" "/tmp/patch.tmp" in
  files (boot two_apks) !! file "/tmp/patch.tmp" = None ∧
  crashed_run.1 = Err (CalledProcessError 1 c) ∧
  trace crashed_run.2 = [Ran c 1 []] ∧
  files crashed_run.2 !! file "/tmp/patch.tmp" = Some toy_header.
Proof. repeat split; vm_compute; reflexivity. Qed.

(** ** C6: the input files *)

(** C6, as amended.  With the documented tools, an input file that is
    not one of the files the pipeline writes or removes holds the same
    bytes after the call as before it, whether the call returns or
    raises.  Whether two paths name the same file is for the host to
    say, not their spelling. *)
Theorem inputs_untouched cd old_file new_file save_patch_path temp_path
    st r st' :
  calculate_sizes (posix cd) old_file new_file save_patch_path temp_path st
    = (r, st') →
  realpath (posix cd) old_file
    ∉ work_files (posix cd) save_patch_path temp_path →
  realpath (posix cd) new_file
    ∉ work_files (posix cd) save_patch_path temp_path →
  files st' !! realpath (posix cd) old_file
    = files st !! realpath (posix cd) old_file ∧
  files st' !! realpath (posix cd) new_file
    = files st !! realpath (posix cd) new_file.
Proof.
  intros Hrun Hold Hnew.
  pose proof (wp_run _ _ _ _ _ (calculate_sizes_frame _ _ _ _ _ _) Hrun) as Hq.
  split; by apply Hq.
Qed.

Lemma inputs_untouched_witness :
  saved_run.1 = Ok {| gzipped_new_file_size := 20; bsdiff_patch_size := 27 |} ∧
  files saved_run.2 !! file "old.apk" = Some old_apk ∧
  files saved_run.2 !! file "new.apk" = Some new_apk.
Proof.
  split; [vm_compute; reflexivity|].
  apply (inputs_untouched toy "old.apk" "new.apk" (Some "patch.out")
           "/tmp/patch.tmp" (boot two_apks) saved_run.1 saved_run.2).
  - vm_compute. reflexivity.
  - by_evaluation.
  - by_evaluation.
Defined.

(** C6 fails as stated: asked to save the patch at [./new.apk], another
    spelling of the path of the new file, the pipeline removes that file
    before it rebuilds the patch there, gzip then replaces it by
    [new.apk.gz], and the call ends in an error with the new file
    gone. *)
Lemma save_path_on_new_file_deletes_it :
  files (boot two_apks) !! file "new.apk" = Some new_apk ∧
  file "./new.apk" = file "new.apk" ∧
  aliased_run.1
    = Err (Exception "Problem gzipping the new APK, returned code: 1") ∧
  files aliased_run.2 !! file "new.apk" = None.
Proof. repeat split; vm_compute; reflexivity. Qed.

(** ** C7: the size of the gzipped new file *)

(** C7, as amended.  With the documented tools, when [new_file] is not
    one of the files the pipeline writes or removes and the call
    returns, ['gzipped_new_file_size'] is the length of the level-9 gzip
    stream of the bytes [new_file] held before the call: the stream that
    [gzip --keep -c -9 new_file], the last process of the call, printed,
    and the one it prints when run on the files as they were before the
    call. *)
Theorem new_file_size_is_direct_gzip cd old_file new_file save_patch_path
    temp_path st v st' :
  calculate_sizes (posix cd) old_file new_file save_patch_path temp_path st
    = (Ok v, st') →
  realpath (posix cd) new_file
    ∉ work_files (posix cd) save_patch_path temp_path →
  ∃ b,
    files st !! realpath (posix cd) new_file = Some b ∧
    exec (posix cd) (GzipStdout (gzip_path (bins st')) 9 new_file) (files st)
      = (0%Z, gzip_fn cd 9 new_file b, files st) ∧
    last (trace st')
      = Some (Ran (GzipStdout (gzip_path (bins st')) 9 new_file) 0
                  (gzip_fn cd 9 new_file b)) ∧
    gzipped_new_file_size v = length (gzip_fn cd 9 new_file b).
Proof.
  intros Hrun Hnew.
  destruct (wp_run _ _ _ _ _ (calculate_sizes_new_file_size cd _ _ _ _ _)
              Hrun Hnew) as (b & Hb & Hlast & Hsize).
  exists b. split; [done|]. split; [|done].
  cbn [exec posix posix_exec]. unfold realpath in Hb. cbn [realdir posix] in Hb.
  by rewrite Hb.
Qed.

Lemma new_file_size_is_direct_gzip_witness :
  ∃ v, good_run.1 = Ok v ∧
       gzipped_new_file_size v = length (gzip_fn toy 9 "new.apk" new_apk).
Proof.
  assert (calculate_sizes (posix toy) "old.apk" "new.apk" None "/tmp/patch.tmp"
            (boot two_apks)
          = (Ok {| gzipped_new_file_size := 20; bsdiff_patch_size := 27 |},
             good_run.2)) as Hrun by (vm_compute; reflexivity).
  destruct (new_file_size_is_direct_gzip _ _ _ _ _ _ _ _ Hrun)
    as (b & Hb & _ & _ & Hsize); [by_evaluation|].
  eexists. split; [vm_compute; reflexivity|].
  rewrite Hsize. vm_compute in Hb. by injection Hb as <-.
Defined.

(** C7 fails as stated: a new file that sits at the path of the header
    file is truncated by the pipeline before it is measured.  The size
    returned, 9, is that of the gzip stream of an empty file, not of the
    new file that was passed to the call, whose stream has 20 bytes. *)
Lemma new_file_in_the_work_area :
  files (boot header_apk) !! file "/tmp/patch.tmp.raw_bsdiff_header"
    = Some new_apk ∧
  header_run.1
    = Ok {| gzipped_new_file_size := 9; bsdiff_patch_size := 27 |} ∧
  files header_run.2 !! file "/tmp/patch.tmp.raw_bsdiff_header" = Some [] ∧
  length (gzip_fn toy 9 "/tmp/patch.tmp.raw_bsdiff_header" new_apk) = 20.
Proof. repeat split; vm_compute; reflexivity. Qed.

(** ** C8: one compression level for both sizes *)

(** C8.  With the documented tools, both sizes a call returns are
    lengths of gzip streams at level 9: the patch size of the stream
    that [gzip -9] makes of the rebuilt patch, which is what cat printed,
    the new-file size of the stream that [gzip --keep -c -9] prints for
    [new_file]; both processes are in the trace, run from the same
    [gzip_path]. *)
Theorem both_sizes_at_gzip_9 cd old_file new_file save_patch_path temp_path
    st v st' :
  calculate_sizes (posix cd) old_file new_file save_patch_path temp_path st
    = (Ok v, st') →
  ∃ patch newb tr,
    trace st' = trace st ++ tr ∧
    Ran (Cat (temp_path +:+ ".raw_bsdiff_header") (temp_path +:+ ".raw_bsdiff"))
        0 patch ∈ tr ∧
    Ran (Gzip (gzip_path (bins st')) 9
           (rebuilt_path save_patch_path (temp_path +:+ ".raw_bsdiff"))) 0 []
      ∈ tr ∧
    Ran (GzipStdout (gzip_path (bins st')) 9 new_file) 0
        (gzip_fn cd 9 new_file newb) ∈ tr ∧
    bsdiff_patch_size v
      = length (gzip_fn cd 9
                  (rebuilt_path save_patch_path (temp_path +:+ ".raw_bsdiff"))
                  patch) ∧
    gzipped_new_file_size v = length (gzip_fn cd 9 new_file newb).
Proof.
  intros Hrun.
  exact (wp_run _ _ _ _ _ (calculate_sizes_gzip_level _ _ _ _ _ _) Hrun).
Qed.

Lemma both_sizes_at_gzip_9_witness :
  ∃ patch newb tr,
    trace saved_run.2 = [] ++ tr ∧
    Ran (Cat "/tmp/patch.tmp.raw_bsdiff_header" "/tmp/patch.tmp.raw_bsdiff")
        0 patch ∈ tr ∧
    Ran (Gzip "/usr/bin/gzip" 9 "patch.out") 0 [] ∈ tr ∧
    Ran (GzipStdout "/usr/bin/gzip" 9 "new.apk") 0
        (gzip_fn toy 9 "new.apk" newb) ∈ tr ∧
    27 = length (gzip_fn toy 9 "patch.out" patch) ∧
    20 = length (gzip_fn toy 9 "new.apk" newb).
Proof.
  assert (calculate_sizes (posix toy) "old.apk" "new.apk" (Some "patch.out")
            "/tmp/patch.tmp" (boot two_apks)
          = (Ok {| gzipped_new_file_size := 20; bsdiff_patch_size := 27 |},
             saved_run.2)) as Hrun by (vm_compute; reflexivity).
  exact (both_sizes_at_gzip_9 _ _ _ _ _ _ _ _ Hrun).
Defined.

(** ** C9: two calls on the same files *)

(** C9.  With the documented tools, two calls with the same arguments,
    started from states in which [old_file] and [new_file] hold the same
    bytes and the tool locator gives the same answer, end in the same
    result: the same two sizes, or the same error.  Whatever else the
    file systems hold, such as the leftovers of an earlier call, does not
    matter. *)
Theorem same_inputs_same_sizes cd old_file new_file save_patch_path temp_path
    st1 st2 :
  files st1 !! realpath (posix cd) old_file
    = files st2 !! realpath (posix cd) old_file →
  files st1 !! realpath (posix cd) new_file
    = files st2 !! realpath (posix cd) new_file →
  locate (posix cd) (bins st1) = locate (posix cd) (bins st2) →
  (calculate_sizes (posix cd) old_file new_file save_patch_path temp_path st1).1
  = (calculate_sizes (posix cd) old_file new_file save_patch_path temp_path
       st2).1.
Proof.
  intros Hold Hnew Hloc.
  destruct (calculate_sizes_lockstep cd old_file new_file save_patch_path
              temp_path) as [R' Hstep].
  apply Hstep. split; [done|].
  intros p Hp. rewrite !elem_of_cons in Hp.
  destruct Hp as [->|[->|Hp]]; [done|done|by apply elem_of_nil in Hp].
Qed.

Lemma same_inputs_same_sizes_witness : good_run.1 = second_run.1.
Proof.
  apply (same_inputs_same_sizes toy "old.apk" "new.apk" None "/tmp/patch.tmp"
           (boot two_apks) good_run.2).
  - vm_compute. reflexivity.
  - vm_compute. reflexivity.
  - vm_compute. reflexivity.
Defined.

(** ** C10: the saved patch *)

(** C10, as amended.  With the documented tools, when a non-empty
    [save_patch_path] is given, the file at [save_patch_path + '.gz'] is
    neither the one at [temp_path] nor the one at
    [temp_path + '.raw_bsdiff.gz'], and the call returns, then no file
    is left at [save_patch_path] itself, the file at
    [save_patch_path + '.gz'] is the level-9 gzip stream of the rebuilt
    patch, and ['bsdiff_patch_size'] is its length.  Whether two paths
    name the same file is for the host to say, not their spelling. *)
Theorem saved_patch_is_the_gz cd old_file new_file save_patch_path temp_path
    st v st' :
  calculate_sizes (posix cd) old_file new_file (Some save_patch_path)
    temp_path st = (Ok v, st') →
  truthy save_patch_path = true →
  realpath (posix cd) (save_patch_path +:+ ".gz")
    ≠ realpath (posix cd) temp_path →
  realpath (posix cd) (save_patch_path +:+ ".gz")
    ≠ realpath (posix cd) ((temp_path +:+ ".raw_bsdiff") +:+ ".gz") →
  files st' !! realpath (posix cd) save_patch_path = None ∧
  ∃ patch,
    files st' !! realpath (posix cd) (save_patch_path +:+ ".gz")
      = Some (gzip_fn cd 9 save_patch_path patch) ∧
    bsdiff_patch_size v = length (gzip_fn cd 9 save_patch_path patch).
Proof.
  intros Hrun.
  exact (wp_run _ _ _ _ _ (calculate_sizes_saved_patch _ _ _ _ _ _) Hrun).
Qed.

Lemma saved_patch_is_the_gz_witness :
  saved_run.1 = Ok {| gzipped_new_file_size := 20; bsdiff_patch_size := 27 |} ∧
  files saved_run.2 !! file "patch.out" = None ∧
  ∃ patch,
    files saved_run.2 !! file ("patch.out" +:+ ".gz")
      = Some (gzip_fn toy 9 "patch.out" patch) ∧
    27 = length (gzip_fn toy 9 "patch.out" patch).
Proof.
  assert (calculate_sizes (posix toy) "old.apk" "new.apk" (Some "patch.out")
            "/tmp/patch.tmp" (boot two_apks)
          = (Ok {| gzipped_new_file_size := 20; bsdiff_patch_size := 27 |},
             saved_run.2)) as Hrun by (vm_compute; reflexivity).
  split; [vm_compute; reflexivity|].
  apply (saved_patch_is_the_gz _ _ _ _ _ _ _ _ Hrun).
  - reflexivity.
  - by_evaluation.
  - by_evaluation.
Defined.

(** C10 fails as stated: when [temp_path] is [save_patch_path + '.gz'],
    the call returns a patch size, but the saved patch has been
    overwritten by the gzip of the new file, which is written to
    [temp_path], and then removed by the clean-up block. *)
Lemma saved_patch_overwritten :
  overwritten_run.1
    = Ok {| gzipped_new_file_size := 20; bsdiff_patch_size := 27 |} ∧
  files overwritten_run.2 !! file ("/tmp/patch" +:+ ".gz") = None.
Proof. split; vm_compute; reflexivity. Qed.

(** The other excluded case: asked to save the patch at
    [temp_path + '.raw_bsdiff'], the call removes the decompressed
    payload, rebuilds an empty patch in its place and returns the size of
    its gzip stream, and the clean-up block removes that gzip file, which
    sits at [temp_path + '.raw_bsdiff.gz']. *)
Remark saved_patch_removed_by_cleanup :
  clobbered_run.1
    = Ok {| gzipped_new_file_size := 20; bsdiff_patch_size := 9 |} ∧
  files clobbered_run.2 !! file "/tmp/patch.tmp.raw_bsdiff.gz" = None ∧
  files clobbered_run.2 !! file "/tmp/patch.tmp.raw_bsdiff" = None.
Proof. repeat split; vm_compute; reflexivity. Qed.

(** * Further properties of the code *)

(** ** The tool locator *)

(** X1.  [find_bins_or_die] raises exactly when a tool whose path is not
    set yet is not found by [which], and the error names the first such
    tool in the order bsdiff, gzip, head, tail, bunzip2.  A tool whose
    path is already set is not looked up. *)
Theorem first_missing_tool_is_reported E st :
  (find_bins_or_die E st).1
  = match find (λ name, bool_decide (which E name = None)) (wanted (bins st))
    with
    | Some name => Err (not_on_path name)
    | None => Ok ()
    end.
Proof. apply find_bins_or_die_result. Qed.

(** X2.  [find_bins_or_die] touches neither the files nor the processes.
    It never changes a tool path that is already set; a path it does
    change becomes the stripped output of [which] for that tool; and when
    it returns, every path that was unset has been filled in that way. *)
Theorem locator_fills_unset_paths E st name get :
  (name, get) ∈ tools →
  let run := find_bins_or_die E st in
  files run.2 = files st ∧ trace run.2 = trace st ∧
  (truthy (get (bins st)) = true → get (bins run.2) = get (bins st)) ∧
  (get (bins run.2) = get (bins st)
   ∨ ∃ out, which E name = Some out ∧ get (bins run.2) = strip out) ∧
  (run.1 = Ok () → truthy (get (bins st)) = false →
   ∃ out, which E name = Some out ∧ get (bins run.2) = strip out).
Proof.
  intros Hin run.
  destruct (find_bins_or_die_files_trace E st) as [Hf Ht].
  split; [done|]. split; [done|]. by apply find_bins_or_die_bins.
Qed.

Lemma locator_fills_unset_paths_witness :
  ∃ out, which (posix toy) "gzip" = Some out ∧
         gzip_path (bins located) = strip out.
Proof.
  destruct (locator_fills_unset_paths (posix toy) (boot ∅) "gzip" gzip_path)
    as (_ & _ & _ & _ & Hfilled).
  - solve_elem.
  - apply Hfilled; reflexivity.
Defined.

(** X3.  Tool paths are looked up once per interpreter: after a call of
    [find_bins_or_die] that returned, [which] having printed more than
    white space for each tool, a later call returns at once and changes
    nothing, whatever the host answers by then. *)
Theorem tool_paths_looked_up_once E st st' :
  find_bins_or_die E st = (Ok (), st') →
  (∀ name get out, (name, get) ∈ tools → which E name = Some out →
                   truthy (strip out) = true) →
  ∀ E', find_bins_or_die E' st' = (Ok (), st').
Proof.
  intros Hrun Hout E'. apply find_bins_or_die_set, wanted_nil.
  intros name get Hin.
  destruct (find_bins_or_die_bins E st name get Hin) as (Hkept & _ & Hfilled).
  rewrite Hrun in Hkept, Hfilled. cbn [fst snd] in Hkept, Hfilled.
  destruct (truthy (get (bins st))) eqn:Hset.
  - by rewrite Hkept.
  - destruct Hfilled as (out & Hwhich & ->); [done..|]. by eapply Hout.
Qed.

Lemma tool_paths_looked_up_once_witness :
  find_bins_or_die bare located = (Ok (), located).
Proof.
  apply (tool_paths_looked_up_once (posix toy) (boot ∅) located).
  - vm_compute. reflexivity.
  - intros name get out Hin Hwhich. unfold tools in Hin.
    rewrite !elem_of_cons in Hin.
    destruct_or!; simplify_eq/=; [vm_compute; reflexivity ..|].
    by apply elem_of_nil in Hin.
Defined.

(** X4.  [find_binary] returns what [which] printed without the white
    space around it, such as the newline that ends the line, and changes
    nothing: for an output made of white space, a path that neither
    starts nor ends with white space, and white space again, it returns
    exactly that path. *)
Theorem find_binary_trims E binary_name a path b st :
  which E binary_name = Some (a +:+ path +:+ b) →
  blank a = true → blank b = true → trimmed path = true →
  find_binary E binary_name st = (Ok path, st).
Proof.
  intros Hwhich Ha Hb Hpath. unfold find_binary.
  by rewrite Hwhich, strip_spec.
Qed.

Lemma find_binary_trims_witness :
  find_binary (posix toy) "bunzip2" (boot ∅) = (Ok "/usr/bin/bunzip2", boot ∅).
Proof.
  apply (find_binary_trims (posix toy) "bunzip2" "" "/usr/bin/bunzip2" newline);
    vm_compute; reflexivity.
Defined.

(** ** The pipeline *)

(** X5.  A missing tool is found out before any process is started, but
    after the stale [temp_path] and [temp_path + '.gz'] have been
    removed: the call raises the error of the tool locator, the removal
    of those two paths is its only effect on the files, and no process
    has run. *)
Theorem missing_tool_stops_early E old_file new_file save_patch_path temp_path
    st name :
  find (λ n, bool_decide (which E n = None)) (wanted (bins st)) = Some name →
  let run := calculate_sizes E old_file new_file save_patch_path temp_path st in
  run.1 = Err (not_on_path name) ∧
  trace run.2 = trace st ∧
  files run.2 = delete (realpath E temp_path)
                  (delete (realpath E (temp_path +:+ ".gz")) (files st)).
Proof.
  intros Hfind. exact (calculate_sizes_missing_tool _ _ _ _ _ _ _ Hfind).
Qed.

Lemma missing_tool_stops_early_witness :
  let run := calculate_sizes bare "old.apk" "new.apk" None "/tmp/patch.tmp"
               (boot two_apks) in
  run.1 = Err (not_on_path "bsdiff") ∧
  trace run.2 = trace (boot two_apks) ∧
  files run.2
  = delete (file "/tmp/patch.tmp")
      (delete (file ("/tmp/patch.tmp" +:+ ".gz")) (files (boot two_apks))).
Proof.
  apply (missing_tool_stops_early bare "old.apk" "new.apk" None
           "/tmp/patch.tmp" (boot two_apks) "bsdiff").
  vm_compute. reflexivity.
Defined.

(** X6.  On any host, the processes of a call are a prefix of the same
    seven commands, in script order: bsdiff, head, tail, bunzip2, cat,
    gzip and gzip -c, run from the tool paths that the locator leaves in
    the globals.  A call that returns has run all seven, each once, and
    each exited 0. *)
Theorem runs_the_script_in_order E old_file new_file save_patch_path temp_path
    st :
  let run := calculate_sizes E old_file new_file save_patch_path temp_path st in
  bins run.2 = (locate E (bins st)).2 ∧
  ∃ tr, trace run.2 = trace st ++ tr ∧
        ev_cmd <$> tr `prefix_of`
          script (bins run.2) old_file new_file save_patch_path temp_path ∧
        match run.1 with
        | Ok _ =>
            ev_cmd <$> tr
            = script (bins run.2) old_file new_file save_patch_path temp_path ∧
            quiet tr
        | Err _ => True
        end.
Proof.
  split.
  - exact (calculate_sizes_bins _ _ _ _ _ _).
  - exact (calculate_sizes_script _ _ _ _ _ _).
Qed.

(** X7.  The errors that the script raises itself and those of
    [check_output], an [Exception] with a message or a
    [CalledProcessError], have two causes only: a tool is not on the
    PATH, and then no process has run; or a process has exited non-zero,
    every process before it having exited 0, and the error is the one of
    that process. *)
Theorem raises_for_two_reasons E old_file new_file save_patch_path temp_path
    st e :
  let run := calculate_sizes E old_file new_file save_patch_path temp_path st in
  run.1 = Err e →
  (∀ p, e ≠ OSError p) →
  (∃ name, name ∈ wanted (bins st) ∧ which E name = None ∧
           e = not_on_path name ∧ trace run.2 = trace st)
  ∨ (∃ tr0 ev, trace run.2 = trace st ++ tr0 ++ [ev] ∧ quiet tr0 ∧
               ev_status ev ≠ 0%Z ∧ e = raised_for ev).
Proof.
  intros run Hrun Hos.
  destruct (calculate_sizes_errors E old_file new_file save_patch_path
              temp_path st e Hrun) as [Hloc|[Hproc|(tr & _ & _ & -> & _)]];
    [by left | by right | by destruct (Hos _ eq_refl)].
Qed.

Lemma raises_for_two_reasons_witness :
  let e := Exception "Problem at the bsdiff step, returned code: -1" in
  mock_run.1 = Err e ∧
  ((∃ name, name ∈ wanted (bins (boot ∅)) ∧ which mocked name = None ∧
            e = not_on_path name ∧ trace mock_run.2 = trace (boot ∅))
   ∨ (∃ tr0 ev, trace mock_run.2 = trace (boot ∅) ++ tr0 ++ [ev] ∧ quiet tr0 ∧
                ev_status ev ≠ 0%Z ∧ e = raised_for ev)).
Proof.
  intros e. split; [vm_compute; reflexivity|].
  apply (raises_for_two_reasons mocked "" "" None "/tmp/patch.tmp" (boot ∅) e).
  - vm_compute. reflexivity.
  - discriminate.
Defined.

(** X10.  With the documented tools, when the two input files exist
    outside the work area but the payload of the bsdiff output is not a
    bzip2 stream, the call stops at bunzip2: it raises the
    [CalledProcessError] of that command with status 2 and leaves the
    bsdiff output at [temp_path], an empty header file and the payload
    at [temp_path + '.raw_bsdiff.bz2']; the three other temporary files
    it has cleared are gone, and every other file, a saved patch
    included, is as before. *)
Theorem corrupt_payload_stops_at_bunzip2 cd old_file new_file save_patch_path
    temp_path st ob nb :
  let K := realpath (posix cd) in
  let run := calculate_sizes (posix cd) old_file new_file save_patch_path
               temp_path st in
  let raw_bsdiff_path := temp_path +:+ ".raw_bsdiff" in
  files st !! K old_file = Some ob →
  files st !! K new_file = Some nb →
  bunzip2_fn cd (drop 32 (bsdiff_fn cd ob nb)) = None →
  K old_file ∉ work_files (posix cd) save_patch_path temp_path →
  K new_file ∉ work_files (posix cd) save_patch_path temp_path →
  run.1 = Err (CalledProcessError 2
                 (Bunzip2 (bunzip2_path (bins run.2))
                    (raw_bsdiff_path +:+ ".bz2"))) ∧
  ∀ k, files run.2 !! k
       = if decide (k = K temp_path) then Some (bsdiff_fn cd ob nb)
         else if decide (k = K (temp_path +:+ ".raw_bsdiff_header"))
              then Some []
         else if decide (k = K (raw_bsdiff_path +:+ ".bz2"))
              then Some (drop 32 (bsdiff_fn cd ob nb))
         else if decide (k ∈ [ K (temp_path +:+ ".gz"); K raw_bsdiff_path;
                               K (raw_bsdiff_path +:+ ".gz") ])
              then None
         else files st !! k.
Proof.
  intros K run raw_bsdiff_path Hold Hnew Hd Ho Hn.
  by apply (calculate_sizes_corrupt cd old_file new_file save_patch_path
              temp_path st ob nb).
Qed.

Lemma corrupt_payload_stops_at_bunzip2_witness :
  corrupt_run.1
    = Err (CalledProcessError 2
             (Bunzip2 "/usr/bin/bunzip2" "/tmp/patch.tmp.raw_bsdiff.bz2")) ∧
  files corrupt_run.2 !! file "/tmp/patch.tmp" = Some (toy_header ++ new_apk) ∧
  files corrupt_run.2 !! file "/tmp/patch.tmp.raw_bsdiff.bz2" = Some new_apk.
Proof.
  destruct (corrupt_payload_stops_at_bunzip2 corrupt "old.apk" "new.apk" None
              "/tmp/patch.tmp" (boot two_apks) old_apk new_apk)
    as [Hres Hfiles].
  - vm_compute. reflexivity.
  - vm_compute. reflexivity.
  - vm_compute. reflexivity.
  - by_evaluation.
  - by_evaluation.
  - split; [exact Hres|].
    split; [exact (Hfiles (file "/tmp/patch.tmp"))
           |exact (Hfiles (file "/tmp/patch.tmp.raw_bsdiff.bz2"))].
Defined.

(** ** The command line *)

(** X11.  [main] checks its arguments before anything else: when a check
    fails it raises an [Exception] with one of its five messages, and
    nothing has been removed, written or run. *)
Theorem rejected_arguments_change_nothing O E a st :
  ¬ accepted O E a st →
  ∃ msg, msg ∈ rejections a ∧ main O E a st = (Err (Exception msg), st).
Proof.
  intros Hrej. by destruct (main_run O E a st) as [[_ Hmsg]|[Hacc _]].
Qed.

Lemma rejected_arguments_change_nothing_witness :
  ∃ msg, msg ∈ rejections cli ∧
         main desk (posix toy) cli (boot no_old_apk)
         = (Err (Exception msg), boot no_old_apk).
Proof.
  apply (rejected_arguments_change_nothing desk (posix toy) cli
           (boot no_old_apk)).
  intros [[b Hold] _]. vm_compute in Hold. discriminate Hold.
Defined.

(** X13.  Run from the command line with the documented tools, the patch
    that [--save-patch p] asks for ends up at [p + '.gz'], not at [p],
    and the patch size [main] reports is the size of that file, unless
    [p] names the file at [temp_dir + '/patch.tmp.raw_bsdiff'], in
    whatever spelling: the name of the file at [temp_path] is
    [patch.tmp], so it is never the file at [p + '.gz']. *)
Theorem main_saves_patch_beside cd O a st rep st' p :
  main O (posix cd) a st = (Ok rep, st') →
  args.save_patch a = Some p →
  truthy p = true →
  realpath (posix cd) p
    ≠ realpath (posix cd)
        ((args.temp_dir a +:+ "/patch.tmp") +:+ ".raw_bsdiff") →
  files st' !! realpath (posix cd) p = None ∧
  ∃ patch,
    files st' !! realpath (posix cd) (p +:+ ".gz")
      = Some (gzip_fn cd 9 p patch) ∧
    bsdiff_size rep = length (gzip_fn cd 9 p patch).
Proof.
  intros Hmain Hsave Hp Hne.
  destruct (main_run O (posix cd) a st) as [[_ (msg & _ & Hrej)]|[_ Hrun]];
    [congruence|].
  rewrite Hrun in Hmain. clear Hrun. cbv zeta in Hmain. rewrite Hsave in Hmain.
  destruct (calculate_sizes _ _ _ _ _ _) as [[v|e] st1] eqn:Hcalc;
    cbn [fst snd] in Hmain; [|done].
  destruct (files st1 !! realpath (posix cd) (args.new_file a));
    simplify_eq/=.
  apply (wp_run _ _ _ _ _ (calculate_sizes_saved_patch _ _ _ _ _ _) Hcalc);
    [done|apply entry_gz_ne_patch_tmp|].
  intros Heq. by apply entry_app_inj in Heq.
Qed.

Lemma main_saves_patch_beside_witness :
  cli_run.1
    = Ok {| new_file_size := 11; gzipped_size := 20; bsdiff_size := 27 |} ∧
  files cli_run.2 !! file "patch.out" = None ∧
  ∃ patch, files cli_run.2 !! file ("patch.out" +:+ ".gz")
           = Some (gzip_fn toy 9 "patch.out" patch) ∧
           27 = length (gzip_fn toy 9 "patch.out" patch).
Proof.
  split; [vm_compute; reflexivity|].
  apply (main_saves_patch_beside toy desk cli (boot two_apks)
           {| new_file_size := 11; gzipped_size := 20; bsdiff_size := 27 |}
           cli_run.2 "patch.out").
  - vm_compute. reflexivity.
  - reflexivity.
  - reflexivity.
  - by_evaluation.
Defined.

(** X14.  Run with the documented tools, [main] creates, changes and
    removes files only among the work files of [temp_dir + '/patch.tmp']
    and of the save path: every other file holds after the run, whether
    it ends in a report or in an error, the bytes it held before.  A
    path that names one of the work files in another spelling is not
    such a file. *)
Theorem main_touches_only_work_paths cd O a st k :
  k ∉ work_files (posix cd) (args.save_patch a)
        (args.temp_dir a +:+ "/patch.tmp") →
  files (main O (posix cd) a st).2 !! k = files st !! k.
Proof.
  intros Hk.
  destruct (main_run O (posix cd) a st) as [[_ (msg & _ & ->)]|[Hacc _]];
    [done|].
  rewrite main_state by done.
  by apply (calculate_sizes_frame cd).
Qed.

Lemma main_touches_only_work_paths_witness :
  cli_run.1
    = Ok {| new_file_size := 11; gzipped_size := 20; bsdiff_size := 27 |} ∧
  files cli_run.2 !! file "old.apk" = files (boot two_apks) !! file "old.apk".
Proof.
  split; [vm_compute; reflexivity|].
  apply (main_touches_only_work_paths toy desk cli (boot two_apks)
           (file "old.apk")).
  by_evaluation.
Defined.
